(** * Knowledge Graph Server: a shallow embedding of [main.py]

    The development follows the layout of the program: the JSON values the
    persistence layer exchanges with the memory file, the pydantic models,
    the I/O handlers [read_graph_file] and [save_graph], and the endpoints.

    Modelling boundary.  [json.loads], [str.strip] and pydantic's
    [model_dump_json] are library code: the memory file is represented by
    what [f.read().strip()] followed by [json.loads] makes of it (see [text]),
    and [save_graph] stores the JSON tree that [model_dump_json(by_alias=True)]
    serialises.  String fields are validated as pydantic v2 does (a value
    that is not a string is rejected with a validation error).

    Strings.  A Python [str] is modelled by its UTF-8 encoding, a Rocq
    string of bytes, as the memory file holds it (a lone surrogate, which
    [json.loads] can make of an escape, by its three bytes of the same
    scheme): equality and emptiness are
    those of the text, [contains] on the bytes is the substring test on the
    characters (no character's encoding occurs inside another's), and
    [chars] cuts a string into its characters.  [str.lower] is a builtin
    whose table is not part of the program: the handlers that call it take
    it as the parameter [lower], and what is proved of them holds for every
    function in its place.  [ascii_lower] stands for it in the examples,
    whose text is ASCII.

    Time.  Every evaluation of [datetime.now().isoformat()] reads the next
    value of a clock carried by the world; nothing is assumed of the values
    read.  Requests arrive already parsed: typed where the request model is
    typed ([Relation], [ObservationItem], lists of strings), and as JSON
    dicts where the model says [List[dict]]. *)

From Stdlib Require Import ZArith Ascii String.
From stdpp Require Import base option list strings gmap pretty.

Local Open Scope Z_scope.
Local Open Scope string_scope.
Local Open Scope list_scope.
Local Open Scope nat_scope.

(** ** Exceptions and the request monad *)

(** The exceptions that can leave the handlers. *)
Inductive exn : Type :=
  | AttributeError
  | KeyError (key : string)
  | TypeError
  | ValidationError
  | UnicodeDecodeError
  | RecursionError
  | ValueError.

Inductive result (A : Type) : Type :=
  | Ok (a : A)
  | Raise (e : exn).
Arguments Ok {A} a.
Arguments Raise {A} e.

Definition is_ok {A} (r : result A) : bool :=
  match r with Ok _ => true | Raise _ => false end.

(** JSON values as [json.loads] returns them: [None], [bool], [int], [float]
    (a decimal [mantissa * 10 ^ exponent]), [str], [list] and [dict] (keys in
    insertion order, looked up by first match). *)
#[local] Set Warnings "-register-all,-clear-no-such-hyp".
Inductive json : Type :=
  | JNull
  | JBool (b : bool)
  | JInt (z : Z)
  | JFloat (mantissa exponent : Z)
  | JStr (s : string)
  | JArr (items : list json)
  | JObj (fields : list (string * json)).

Definition dict := list (string * json).

(** What [f.read().strip()] and [json.loads] make of the bytes of the file. *)
Inductive text : Type :=
  | NotUtf8                (* f.read() raises UnicodeDecodeError *)
  | Whitespace             (* content.strip() is empty *)
  | NotJson                (* json.loads raises JSONDecodeError *)
  | Unloadable (e : exn)   (* json.loads raises e, not a JSONDecodeError:
                              RecursionError on deep nesting, ValueError on
                              an integer with too many digits *)
  | Json (data : json).    (* json.loads returns data *)

Inductive file : Type :=
  | NoFile                 (* MEMORY_FILE_PATH.exists() is False *)
  | FileOf (t : text).

(** The world of a request: the memory file and the wall clock.  The [n]-th
    evaluation of [datetime.now().isoformat()] returns [clock n]. *)
Record World : Type := mkWorld {
  disk : file;
  clock : nat -> string;
  ticks : nat
}.

Definition M (A : Type) : Type := World -> result A * World.

Definition ret {A} (a : A) : M A := fun w => (Ok a, w).

Definition bind {A B} (m : M A) (k : A -> M B) : M B :=
  fun w => match m w with
           | (Ok a, w') => k a w'
           | (Raise e, w') => (Raise e, w')
           end.

Definition lift {A} (r : result A) : M A := fun w => (r, w).

Declare Scope req_scope.
Delimit Scope req_scope with req.
Notation "x <- m ;; k" := (bind m (fun x => k))
  (at level 100, m at next level, right associativity) : req_scope.
Notation "m ;;; k" := (bind m (fun _ => k))
  (at level 100, right associativity) : req_scope.
Local Open Scope req_scope.

(** [datetime.now().isoformat()] *)
Definition now : M string :=
  fun w => (Ok (clock w (ticks w)),
            {| disk := disk w; clock := clock w; ticks := S (ticks w) |}).

(** The world after [n] more readings of the clock. *)
Definition advance (n : nat) (w : World) : World :=
  {| disk := disk w; clock := clock w; ticks := n + ticks w |}.

(** A [for] loop that builds a list and stops at the first exception. *)
Fixpoint for_each {A B} (f : A -> M B) (l : list A) : M (list B) :=
  match l with
  | [] => ret []
  | x :: xs => y <- f x ;; ys <- for_each f xs ;; ret (y :: ys)
  end.

(** A [for] loop that updates a state and stops at the first exception. *)
Fixpoint for_fold {A S} (f : S -> A -> M S) (l : list A) (s : S) : M S :=
  match l with
  | [] => ret s
  | x :: xs => s' <- f s x ;; for_fold f xs s'
  end.

(** The same without effects. *)
Definition rbind {A B} (r : result A) (k : A -> result B) : result B :=
  match r with Ok a => k a | Raise e => Raise e end.

Fixpoint rfold {A S} (f : S -> A -> result S) (l : list A) (s : S) : result S :=
  match l with
  | [] => Ok s
  | x :: xs => rbind (f s x) (rfold f xs)
  end.

(** ** Python values *)

(** Truth value of a JSON value ([bool(x)]). *)
Definition truthy (j : json) : bool :=
  match j with
  | JNull => false
  | JBool b => b
  | JInt z => negb (Z.eqb z 0)
  | JFloat m _ => negb (Z.eqb m 0)
  | JStr s => negb (bool_decide (s = ""))
  | JArr l => match l with [] => false | _ => true end
  | JObj d => match d with [] => false | _ => true end
  end.

(** [k in d] and [d.get(k, default)] on a dict. *)
Fixpoint dict_lookup (k : string) (d : dict) : option json :=
  match d with
  | [] => None
  | (k', v) :: d' => if bool_decide (k' = k) then Some v else dict_lookup k d'
  end.

Definition dict_has (k : string) (d : dict) : bool :=
  match dict_lookup k d with Some _ => true | None => false end.

Definition dict_get (k : string) (dflt : json) (d : dict) : json :=
  match dict_lookup k d with Some v => v | None => dflt end.

(** [x.get]: only a dict has the method. *)
Definition get_method (x : json) : result dict :=
  match x with JObj d => Ok d | _ => Raise AttributeError end.

(** [x[k]] on a dict. *)
Definition dict_item (k : string) (d : dict) : result json :=
  match dict_lookup k d with Some v => Ok v | None => Raise (KeyError k) end.

(** The characters of a string: in UTF-8 a byte [10xxxxxx] continues the
    character begun before it. *)
Definition continues (c : ascii) : bool :=
  let n := nat_of_ascii c in (128 <=? n)%nat && (n <? 192)%nat.

Definition starts_inside (s : string) : bool :=
  match s with
  | EmptyString => false
  | String c _ => continues c
  end.

Fixpoint chars (s : string) : list string :=
  match s with
  | EmptyString => []
  | String c s' =>
      if starts_inside s' then
        match chars s' with
        | g :: gs => String c g :: gs
        | [] => [String c EmptyString]
        end
      else String c EmptyString :: chars s'
  end.

(** [for x in v]: a list yields its items, a string its characters, a dict
    its keys; nothing else is iterable. *)
Definition py_iter (v : json) : result (list json) :=
  match v with
  | JArr l => Ok l
  | JStr s => Ok (JStr <$> chars s)
  | JObj d => Ok ((fun kv => JStr kv.1) <$> d)
  | _ => Raise TypeError
  end.

(** [needle in hay] on strings: substring test. *)
Fixpoint is_prefix (p s : string) : bool :=
  match p, s with
  | EmptyString, _ => true
  | String a p', String b s' => bool_decide (a = b) && is_prefix p' s'
  | String _ _, EmptyString => false
  end.

Fixpoint contains (needle hay : string) : bool :=
  is_prefix needle hay ||
  match hay with
  | EmptyString => false
  | String _ hay' => contains needle hay'
  end.

(** [str.lower] on ASCII text, for the examples. *)
Definition lower_char (c : ascii) : ascii :=
  let n := nat_of_ascii c in
  if (65 <=? n)%nat && (n <=? 90)%nat then ascii_of_nat (n + 32) else c.

Fixpoint ascii_lower (s : string) : string :=
  match s with
  | EmptyString => EmptyString
  | String c s' => String (lower_char c) (ascii_lower s')
  end.

(** [s == v] for a string [s] and a JSON value [v]. *)
Definition str_eq (s : string) (v : json) : bool :=
  match v with JStr s' => bool_decide (s = s') | _ => false end.

(** [s in v] for a string [s]: membership in a list, substring of a string,
    key of a dict; a [TypeError] on anything else. *)
Definition py_in (s : string) (v : json) : result bool :=
  match v with
  | JArr l => Ok (existsb (str_eq s) l)
  | JStr t => Ok (contains s t)
  | JObj d => Ok (dict_has s d)
  | _ => Raise TypeError
  end.

(** ** Data models *)

Record Observation : Type := mkObservation {
  content : string;
  timestamp : string
}.

Record Entity : Type := mkEntity {
  name : string;
  entityType : string;
  created_at : string;
  last_modified : string;
  observations : list Observation
}.

(** [Relation.created_at] is [rel_created_at] here: field names are global. *)
Record Relation : Type := mkRelation {
  from_ : string;
  to : string;
  relationType : string;
  rel_created_at : string
}.

Record KnowledgeGraph : Type := mkGraph {
  entities : list Entity;
  relations : list Relation
}.

Definition empty_graph : KnowledgeGraph := mkGraph [] [].

Definition triple (r : Relation) : string * string * string :=
  (from_ r, to r, relationType r).

(** Validation of a [str] field given as a value, and as a keyword of an
    unpacked dict (a missing required field is a validation error too). *)
Definition str_field (v : json) : result string :=
  match v with JStr s => Ok s | _ => Raise ValidationError end.

Definition kw_field (k : string) (d : dict) : result string :=
  match dict_lookup k d with
  | Some (JStr s) => Ok s
  | _ => Raise ValidationError
  end.

(** [Observation] built from the unpacked keywords of [o]. *)
Definition Observation_kwargs (o : json) : result Observation :=
  match o with
  | JObj d =>
      rbind (kw_field "content" d) (fun c =>
      rbind (kw_field "timestamp" d) (fun t =>
      Ok (mkObservation c t)))
  | _ => Raise TypeError
  end.

(** [Relation] built from the unpacked keywords of a dict [r]; the [from_]
    field is populated by its alias [from] only. *)
Definition Relation_kwargs (d : dict) : result Relation :=
  rbind (kw_field "from" d) (fun f =>
  rbind (kw_field "to" d) (fun t =>
  rbind (kw_field "relationType" d) (fun ty =>
  rbind (kw_field "created_at" d) (fun c =>
  Ok (mkRelation f t ty c))))).

(** [Entity(name=.., entityType=.., created_at=.., last_modified=..,
    observations=obs)] *)
Definition Entity_new (n ty c lm : json) (obs : list Observation)
  : result Entity :=
  rbind (str_field n) (fun n' =>
  rbind (str_field ty) (fun ty' =>
  rbind (str_field c) (fun c' =>
  rbind (str_field lm) (fun lm' =>
  Ok (mkEntity n' ty' c' lm' obs))))).

(** ** I/O handlers *)

(** [e.get("created_at") or e.get("last_modified") or
    datetime.now().isoformat()]: the clock is read only when both stored
    values are falsy (absent, [None], empty, zero). *)
Definition creation_time_of (e : dict) : M json :=
  let c := dict_get "created_at" JNull e in
  if truthy c then ret c
  else
    let lm := dict_get "last_modified" JNull e in
    if truthy lm then ret lm
    else t <- now ;; ret (JStr t).

(** One turn of the loop over [e.get("observations", [])]. *)
Definition load_observation (creation_time : json) (o : json)
  : result Observation :=
  match o with
  | JStr s =>
      rbind (str_field creation_time) (fun t => Ok (mkObservation s t))
  | _ => Observation_kwargs o
  end.

(** One turn of the loop over [data.get("entities", [])]. *)
Definition load_entity (e : json) : M Entity :=
  d <- lift (get_method e) ;;
  creation_time <- creation_time_of d ;;
  os <- lift (py_iter (dict_get "observations" (JArr []) d)) ;;
  obs_list <- for_each (fun o => lift (load_observation creation_time o)) os ;;
  n <- lift (dict_item "name" d) ;;
  ty <- lift (dict_item "entityType" d) ;;
  t <- now ;;
  lift (Entity_new n ty creation_time
          (dict_get "last_modified" (JStr t) d) obs_list).

(** [r[k] = v] for a key [k] that [r] does not have: a dict gets the key,
    last; a list or a string refuses the assignment. *)
Definition set_item (k : string) (v : json) (r : json) : result json :=
  match r with
  | JObj d => Ok (JObj (d ++ [(k, v)]))
  | _ => Raise TypeError
  end.

(** [Relation] built from the unpacked keywords of [r]: only a dict
    unpacks. *)
Definition Relation_unpack (r : json) : result Relation :=
  match r with
  | JObj d => Relation_kwargs d
  | _ => Raise TypeError
  end.

(** One turn of the loop over [data.get("relations", [])]: the membership
    test, the stamp, evaluated before the assignment, and the unpacking. *)
Definition load_relation (r : json) : M Relation :=
  has <- lift (py_in "created_at" r) ;;
  if has then lift (Relation_unpack r)
  else t <- now ;;
       r' <- lift (set_item "created_at" (JStr t) r) ;;
       lift (Relation_unpack r').

Definition load_data (data : json) : M KnowledgeGraph :=
  d <- lift (get_method data) ;;
  es <- lift (py_iter (dict_get "entities" (JArr []) d)) ;;
  ents <- for_each load_entity es ;;
  rs <- lift (py_iter (dict_get "relations" (JArr []) d)) ;;
  rels <- for_each load_relation rs ;;
  ret (mkGraph ents rels).

Definition read_graph_file : M KnowledgeGraph :=
  fun w =>
    match disk w with
    | NoFile => ret empty_graph w
    | FileOf NotUtf8 => lift (Raise UnicodeDecodeError) w
    | FileOf Whitespace => ret empty_graph w
    | FileOf NotJson => ret empty_graph w
    | FileOf (Unloadable e) => lift (Raise e) w
    | FileOf (Json data) => load_data data w
    end.

(** [graph.model_dump_json(indent=2, by_alias=True)] as a JSON tree. *)
Definition dump_observation (o : Observation) : json :=
  JObj [("content", JStr (content o)); ("timestamp", JStr (timestamp o))].

Definition dump_entity (e : Entity) : json :=
  JObj [("name", JStr (name e));
        ("entityType", JStr (entityType e));
        ("created_at", JStr (created_at e));
        ("last_modified", JStr (last_modified e));
        ("observations", JArr (dump_observation <$> observations e))].

Definition dump_relation (r : Relation) : json :=
  JObj [("from", JStr (from_ r));
        ("to", JStr (to r));
        ("relationType", JStr (relationType r));
        ("created_at", JStr (rel_created_at r))].

Definition model_dump (g : KnowledgeGraph) : json :=
  JObj [("entities", JArr (dump_entity <$> entities g));
        ("relations", JArr (dump_relation <$> relations g))].

Definition save_graph (graph : KnowledgeGraph) : M unit :=
  fun w => (Ok tt, {| disk := FileOf (Json (model_dump graph));
                      clock := clock w; ticks := ticks w |}).

(** ** Requests *)

Record ObservationItem : Type := mkObservationItem {
  entityName : string;
  contents : list string
}.

Record RetrieveContextRequest : Type := mkRetrieveContextRequest {
  canonical_entity : string;
  query_thought : string;
  top_k : Z
}.

(** ** Endpoints *)

Definition read_graph : M KnowledgeGraph := read_graph_file.

(** The observations an item of [create_entities] brings: the string items
    of [item["observations"]], stamped [current_time]. *)
Definition initial_observations (current_time : string) (item : dict)
  : result (list Observation) :=
  match dict_lookup "observations" item with
  | None => Ok []
  | Some v =>
      rbind (py_iter v) (fun os =>
      Ok (omap (fun o => match o with
                         | JStr s => Some (mkObservation s current_time)
                         | _ => None
                         end) os))
  end.

(** [name not in existing_names] for the value of [item.get("name")]: a list
    or a dict is not hashable. *)
Definition not_in_names (n : json) (existing_names : gset string)
  : result bool :=
  match n with
  | JStr s => Ok (bool_decide (s ∉ existing_names))
  | JArr _ | JObj _ => Raise TypeError
  | _ => Ok true
  end.

(** The body of the loop of [create_entities]; the state is the entity list
    and [existing_names]. *)
Definition create_entity (current_time : string)
    (st : list Entity * gset string) (item : dict)
  : result (list Entity * gset string) :=
  let n := dict_get "name" JNull item in
  if truthy n then
    rbind (not_in_names n st.2) (fun fresh =>
    if fresh then
      rbind (Entity_new n (dict_get "entityType" (JStr "General") item)
               (JStr current_time) (JStr current_time) []) (fun ent =>
      rbind (initial_observations current_time item) (fun obs =>
      Ok (st.1 ++ [mkEntity (name ent) (entityType ent) (created_at ent)
                     (last_modified ent) obs],
          {[ name ent ]} ∪ st.2)))
    else Ok st)
  else Ok st.

Definition names_of (es : list Entity) : gset string :=
  list_to_set (name <$> es).

Definition create_entities (req : list dict) : M string :=
  graph <- read_graph_file ;;
  let existing_names := names_of (entities graph) in
  current_time <- now ;;
  st <- lift (rfold (create_entity current_time) req
                (entities graph, existing_names)) ;;
  save_graph (mkGraph st.1 (relations graph)) ;;;
  ret "Entities created".

(** The body of the loop of [create_relations]. *)
Definition create_relation (current_time : string)
    (st : list Relation * gset (string * string * string)) (r : Relation)
  : list Relation * gset (string * string * string) :=
  if bool_decide (triple r ∉ st.2) then
    let r' := if bool_decide (rel_created_at r = "")
              then mkRelation (from_ r) (to r) (relationType r) current_time
              else r in
    (st.1 ++ [r'], {[ triple r ]} ∪ st.2)
  else st.

Definition triples_of (rs : list Relation) : gset (string * string * string) :=
  list_to_set (triple <$> rs).

Definition create_relations (req : list Relation) : M string :=
  graph <- read_graph_file ;;
  let existing := triples_of (relations graph) in
  current_time <- now ;;
  let st := foldl (create_relation current_time)
              (relations graph, existing) req in
  save_graph (mkGraph (entities graph) st.1) ;;;
  ret "Relations created".

(** [next((e for e in graph.entities if e.name == n), None)] with the
    position of the entity found: the object is updated in place. *)
Definition find_entity (n : string) (es : list Entity) : option (nat * Entity) :=
  list_find (fun e => name e = n) es.

Definition has_content (content_str : string) (obs : list Observation) : bool :=
  existsb (fun o => bool_decide (content o = content_str)) obs.

(** The inner loop of [add_observations]; the state is the observation list
    of the entity and [count]. *)
Definition add_content (current_time : string)
    (st : list Observation * nat) (content_str : string)
  : list Observation * nat :=
  if has_content content_str st.1 then st
  else (st.1 ++ [mkObservation content_str current_time], S st.2).

(** The outer loop; the state is the entity list and [results]. *)
Definition add_observation_item (current_time : string)
    (st : list Entity * list string) (item : ObservationItem)
  : list Entity * list string :=
  match find_entity (entityName item) st.1 with
  | Some (i, entity) =>
      let oc := foldl (add_content current_time)
                  (observations entity, 0) (contents item) in
      if (0 <? oc.2)%nat then
        (<[i := mkEntity (name entity) (entityType entity)
                  (created_at entity) current_time oc.1]> st.1,
         st.2 ++ ["Added " +:+ pretty oc.2 +:+ " to " +:+ entityName item])
      else
        (<[i := mkEntity (name entity) (entityType entity)
                  (created_at entity) (last_modified entity) oc.1]> st.1,
         st.2)
  | None => st
  end.

Definition add_observations (req : list ObservationItem) : M (list string) :=
  graph <- read_graph_file ;;
  current_time <- now ;;
  let st := foldl (add_observation_item current_time)
              (entities graph, []) req in
  save_graph (mkGraph st.1 (relations graph)) ;;;
  ret st.2.

Definition delete_entities (entityNames : list string) : M string :=
  graph <- read_graph_file ;;
  let es := filter (fun e => name e ∉ entityNames) (entities graph) in
  let rs := filter (fun r => (from_ r ∉ entityNames) ∧ (to r ∉ entityNames))
              (relations graph) in
  save_graph (mkGraph es rs) ;;;
  ret "Deleted entities".

(** [[o for o in observations if o.content not in to_delete]] *)
Fixpoint keep_not_in (to_delete : json) (obs : list Observation)
  : result (list Observation) :=
  match obs with
  | [] => Ok []
  | o :: os =>
      rbind (py_in (content o) to_delete) (fun b =>
      rbind (keep_not_in to_delete os) (fun os' =>
      Ok (if b then os' else o :: os')))
  end.

(** The body of the loop of [delete_observations]. *)
Definition delete_observation_item (es : list Entity) (item : dict)
  : M (list Entity) :=
  match list_find (fun e => str_eq (name e) (dict_get "entityName" JNull item)
                            = true) es with
  | Some (i, entity) =>
      let to_delete := dict_get "observations" (JArr []) item in
      obs <- lift (keep_not_in to_delete (observations entity)) ;;
      t <- now ;;
      ret (<[i := mkEntity (name entity) (entityType entity)
                    (created_at entity) t obs]> es)
  | None => ret es
  end.

Definition delete_observations (deletions : list dict) : M string :=
  graph <- read_graph_file ;;
  es <- for_fold delete_observation_item deletions (entities graph) ;;
  save_graph (mkGraph es (relations graph)) ;;;
  ret "Deleted observations".

Definition delete_relations (req : list Relation) : M string :=
  graph <- read_graph_file ;;
  let to_delete := triples_of req in
  let rs := filter (fun r => triple r ∉ to_delete) (relations graph) in
  save_graph (mkGraph (entities graph) rs) ;;;
  ret "Deleted relations".

(** The subgraph [open_nodes] extracts from a loaded graph. *)
Definition open_nodes_of (names : list string) (graph : KnowledgeGraph)
  : KnowledgeGraph :=
  let target_names : gset string := list_to_set names in
  let es := filter (fun e => name e ∈ target_names) (entities graph) in
  let found_names := names_of es in
  let rs := filter (fun r => from_ r ∈ found_names ∨ to r ∈ found_names)
              (relations graph) in
  mkGraph es rs.

Definition open_nodes (names : list string) : M KnowledgeGraph :=
  graph <- read_graph_file ;;
  ret (open_nodes_of names graph).

(** The test of the loop of [search_nodes], [query] already lowered;
    [lower] is [str.lower]. *)
Definition matches (lower : string -> string) (query : string) (e : Entity)
  : bool :=
  contains query (lower (name e))
  || contains query (lower (entityType e))
  || existsb (fun o => contains query (lower (content o))) (observations e).

Definition search_nodes_of (lower : string -> string) (q : string)
    (graph : KnowledgeGraph) : KnowledgeGraph :=
  let query := lower q in
  let st := foldl (fun (st : list Entity * gset string) e =>
                     if matches lower query e
                     then (st.1 ++ [e], {[ name e ]} ∪ st.2)
                     else st)
              ([], ∅) (entities graph) in
  let rs := filter (fun r => from_ r ∈ st.2 ∧ to r ∈ st.2) (relations graph) in
  mkGraph st.1 rs.

Definition search_nodes (lower : string -> string) (query : string)
  : M KnowledgeGraph :=
  graph <- read_graph_file ;;
  ret (search_nodes_of lower query graph).

(** [l[:k]] *)
Definition slice_to {A} (k : Z) (l : list A) : list A :=
  if (0 <=? k)%Z then take (Z.to_nat k) l
  else take (length l - Z.to_nat (- k)) l.

Section Ranking.
(** Scores are floats; the engine and the rounding to four decimals are
    taken as given.  The engine answers with the ranked pairs or raises,
    and [inl msg] is an exception whose [str(e)] is [msg] (raised by
    [rank] or while its answer is unpacked).  [lower] is [str.lower]. *)
Variable lower : string -> string.
Variable score : Type.
Variable round4 : score -> score.

Definition engine : Type :=
  string -> list string -> string + list (string * score).

Record hit : Type := mkHit {
  hit_content : string;
  hit_score : score;
  hit_created_at : string
}.

Inductive context_response : Type :=
  | ErrorResponse (error : string)
  | NoMemories (tag : string) (results : list hit) (message : string)
  | Ranked (tag query : string) (results : list hit).

(** The loop that fills [candidate_docs] and [doc_map]. *)
Definition collect_candidates (target_tag : string) (es : list Entity)
  : list string * gmap string Observation :=
  foldl (fun st entity =>
           if contains target_tag (lower (entityType entity))
           then foldl (fun (st : list string * gmap string Observation) obs =>
                         (st.1 ++ [content obs], <[content obs := obs]> st.2))
                  st (observations entity)
           else st)
    ([], ∅) es.

Definition top_result (doc_map : gmap string Observation)
    (ts : string * score) : hit :=
  mkHit ts.1 (round4 ts.2)
    (match doc_map !! ts.1 with
     | Some original => timestamp original
     | None => ""
     end).

Definition retrieve_context (wl : option engine)
    (req : RetrieveContextRequest) : M context_response :=
  match wl with
  | None => ret (ErrorResponse "WordLlama engine not loaded.")
  | Some rank =>
      graph <- read_graph_file ;;
      let target_tag := lower (canonical_entity req) in
      let cd := collect_candidates target_tag (entities graph) in
      match cd.1 with
      | [] => ret (NoMemories (canonical_entity req) [] "No memories found.")
      | _ =>
          match rank (query_thought req) cd.1 with
          | inr ranked_results =>
              ret (Ranked (canonical_entity req) (query_thought req)
                     (top_result cd.2 <$> slice_to (top_k req) ranked_results))
          | inl msg => ret (ErrorResponse ("Reranking failed: " +:+ msg))
          end
      end
  end.
End Ranking.

Arguments mkHit {score} hit_content hit_score hit_created_at.
Arguments top_result {score} round4 doc_map ts.
Arguments hit_content {score} h.
Arguments hit_score {score} h.
Arguments hit_created_at {score} h.
Arguments ErrorResponse {score} error.
Arguments NoMemories {score} tag results message.
Arguments Ranked {score} tag query results.
Arguments retrieve_context lower {score} round4 wl req.

(** ** Stored documents and sample data *)

(** The shape of a stored graph, legacy forms included: provenance fields
    may be missing, and an observation may be a bare string. *)
Definition has_str (k : string) (d : dict) : bool :=
  match dict_lookup k d with Some (JStr _) => true | _ => false end.

Definition may_have_str (k : string) (d : dict) : bool :=
  match dict_lookup k d with
  | None | Some (JStr _) => true
  | _ => false
  end.

Definition may_have_all (k : string) (p : json -> bool) (d : dict) : bool :=
  match dict_lookup k d with
  | None => true
  | Some (JArr l) => forallb p l
  | _ => false
  end.

Definition stored_observation (o : json) : bool :=
  match o with
  | JStr _ => true
  | JObj d => has_str "content" d && has_str "timestamp" d
  | _ => false
  end.

Definition stored_entity (e : json) : bool :=
  match e with
  | JObj d =>
      has_str "name" d && has_str "entityType" d
      && may_have_str "created_at" d && may_have_str "last_modified" d
      && may_have_all "observations" stored_observation d
  | _ => false
  end.

Definition stored_relation (r : json) : bool :=
  match r with
  | JObj d =>
      has_str "from" d && has_str "to" d && has_str "relationType" d
      && may_have_str "created_at" d
  | _ => false
  end.

Definition stored_graph (data : json) : bool :=
  match data with
  | JObj d =>
      may_have_all "entities" stored_entity d
      && may_have_all "relations" stored_relation d
  | _ => false
  end.

(** The stored items under a key of the document ([[]] when missing). *)
Definition stored_items (k : string) (data : json) : list json :=
  match data with
  | JObj d => match dict_lookup k d with Some (JArr l) => l | _ => [] end
  | _ => []
  end.

(** A stored string field, if there is one. *)
Definition stored_str (k : string) (e : json) : option string :=
  match e with
  | JObj d => match dict_lookup k d with Some (JStr s) => Some s | _ => None end
  | _ => None
  end.

(** Sample worlds: an empty store and a clock that ticks through a day. *)
Definition sample_clock (n : nat) : string :=
  "2025-03-01T09:00:" +:+ pretty n.

Definition fresh_world : World := mkWorld NoFile sample_clock 0.

Definition world_of (g : KnowledgeGraph) : World :=
  mkWorld (FileOf (Json (model_dump g))) sample_clock 0.

Definition alice : Entity :=
  mkEntity "Alice" "Person" "2025-01-01T10:00:00" "2025-01-02T08:30:00"
    [mkObservation "likes tea" "2025-01-01T10:00:00"].

Definition bob : Entity :=
  mkEntity "Bob" "Person" "2025-01-01T10:00:05" "2025-01-01T10:00:05" [].

Definition alice_knows_bob : Relation :=
  mkRelation "Alice" "Bob" "knows" "2025-01-03T12:00:00".

Definition sample_graph : KnowledgeGraph :=
  mkGraph [alice; bob] [alice_knows_bob].


(** ** What the load owes to a stored document *)

(** [s] is a reading of the clock taken between tick [lo] and tick [hi]. *)
Definition reading (clk : nat -> string) (lo hi : nat) (s : string) : Prop :=
  exists n, lo <= n < hi /\ s = clk n.

Definition nonempty (o : option string) : option string :=
  match o with
  | Some s => if bool_decide (s = "") then None else Some s
  | None => None
  end.

(** A bare string becomes an observation stamped with the creation time of
    its entity; a structured observation is taken as it is. *)
Definition upgraded (entity_created_at : string) (o : json) (ob : Observation)
  : Prop :=
  match o with
  | JStr s => ob = mkObservation s entity_created_at
  | _ => stored_str "content" o = Some (content ob)
         /\ stored_str "timestamp" o = Some (timestamp ob)
  end.

(** [created_at] is the stored one, else the stored [last_modified], else the
    current time; [last_modified] is the stored one, else the current time. *)
Definition backfilled (clk : nat -> string) (lo hi : nat)
    (e : json) (ent : Entity) : Prop :=
  stored_str "name" e = Some (name ent)
  /\ stored_str "entityType" e = Some (entityType ent)
  /\ match nonempty (stored_str "created_at" e),
           nonempty (stored_str "last_modified" e) with
     | Some c, _ => created_at ent = c
     | None, Some lm => created_at ent = lm
     | None, None => reading clk lo hi (created_at ent)
     end
  /\ match stored_str "last_modified" e with
     | Some lm => last_modified ent = lm
     | None => reading clk lo hi (last_modified ent)
     end
  /\ Forall2 (upgraded (created_at ent))
       (stored_items "observations" e) (observations ent).

Definition stamped (clk : nat -> string) (lo hi : nat)
    (r : json) (rel : Relation) : Prop :=
  stored_str "from" r = Some (from_ rel)
  /\ stored_str "to" r = Some (to rel)
  /\ stored_str "relationType" r = Some (relationType rel)
  /\ match stored_str "created_at" r with
     | Some c => rel_created_at rel = c
     | None => reading clk lo hi (rel_created_at rel)
     end.

(** A legacy document: no [created_at] anywhere, a bare-string observation
    next to a structured one, an entity without any provenance. *)
Definition legacy_doc : json :=
  JObj [("entities",
         JArr [JObj [("name", JStr "Dana");
                     ("entityType", JStr "Person");
                     ("last_modified", JStr "2024-06-01T12:00:00");
                     ("observations",
                      JArr [JStr "likes coffee";
                            JObj [("content", JStr "plays chess");
                                  ("timestamp", JStr "2024-07-01T08:00:00")]])];
               JObj [("name", JStr "Eve");
                     ("entityType", JStr "Person");
                     ("observations", JArr [JStr "is new"])]]);
        ("relations",
         JArr [JObj [("from", JStr "Dana"); ("to", JStr "Eve");
                     ("relationType", JStr "knows")]])].

Definition legacy_world : World :=
  mkWorld (FileOf (Json legacy_doc)) sample_clock 0.

(** The graph of the endpoint-rule scenario: [A] and [B], and [A] knows [B]. *)
Definition node_a : Entity :=
  mkEntity "A" "Node" "2025-01-01T10:00:00" "2025-01-01T10:00:00" [].

Definition node_b : Entity :=
  mkEntity "B" "Node" "2025-01-01T10:00:01" "2025-01-01T10:00:01" [].

Definition a_knows_b : Relation :=
  mkRelation "A" "B" "knows" "2025-01-01T10:00:02".

Definition ab_graph : KnowledgeGraph := mkGraph [node_a; node_b] [a_knows_b].



(** A handler leaves the file and the clock as they are, and time only moves
    forward. *)
Definition reads_only {A} (m : M A) : Prop :=
  forall w r w', m w = (r, w') ->
    disk w' = disk w /\ clock w' = clock w /\ ticks w <= ticks w'.

(** The world once [save_graph graph] has run in [w]. *)
Definition saved (graph : KnowledgeGraph) (w : World) : World :=
  {| disk := FileOf (Json (model_dump graph)); clock := clock w;
     ticks := ticks w |}.

(** ** Loops that update the entity found by name *)

Section UpdateFound.
(** The loops of [add_observations] and [delete_observations] look an
    entity up by a name their item gives and update that object in place;
    [hit a n] says that item [a] asks for the name [n]. *)
Context {A : Type} (hit : A -> string -> Prop).
Context `{!forall a n, Decision (hit a n)}.
Variable f : A -> Entity -> Entity.

Definition update_found (es : list Entity) (a : A) : list Entity :=
  match list_find (fun e => hit a (name e)) es with
  | Some (i, e) => <[i := f a e]> es
  | None => es
  end.


End UpdateFound.

(** What [add_observations] does to the entity an item finds. *)
Definition touch_entity (current_time : string) (item : ObservationItem)
    (entity : Entity) : Entity :=
  let oc := foldl (add_content current_time)
              (observations entity, 0) (contents item) in
  mkEntity (name entity) (entityType entity) (created_at entity)
    (if (0 <? oc.2)%nat then current_time else last_modified entity) oc.1.

Definition names_item (item : ObservationItem) (n : string) : Prop :=
  n = entityName item.




#[global] Instance names_item_dec item n : Decision (names_item item n) :=
  decide (n = entityName item).

(** ** Deletion items *)



Definition names_deletion (item : dict) (n : string) : Prop :=
  str_eq n (dict_get "entityName" JNull item) = true.

#[global] Instance names_deletion_dec item n : Decision (names_deletion item n) :=
  decide (str_eq n (dict_get "entityName" JNull item) = true).

(** A deletion item with the reading of the clock at its turn. *)
Definition timed_names (a : dict * string) (n : string) : Prop :=
  names_deletion a.1 n.

#[global] Instance timed_names_dec a n : Decision (timed_names a n) :=
  names_deletion_dec a.1 n.



(** The candidate documents of [retrieve_context]: the contents of the
    observations of the entities whose type contains the tag. *)
Definition candidates_of (lower : string -> string) (target_tag : string)
    (es : list Entity)
  : list string :=
  concat ((fun e => if contains target_tag (lower (entityType e))
                    then content <$> observations e else []) <$> es).

(** Sample ranking engines over integer scores: one that fails, one that
    answers in the order given. *)
Definition failing_engine : engine nat :=
  fun _ _ => inl "model crashed".

Definition echo_engine : engine nat :=
  fun _ docs => inr ((fun d => (d, 1)) <$> docs).

(** ** Further notions used by the properties of the endpoints *)


(** Every relation of the graph joins two entities of the graph. *)
Definition no_dangling (g : KnowledgeGraph) : Prop :=
  forall r, r ∈ relations g ->
    from_ r ∈ name <$> entities g /\ to r ∈ name <$> entities g.

(** The names of an entity list are unique, and so are the triples of a
    relation list. *)
Definition unique_keys (g : KnowledgeGraph) : Prop :=
  NoDup (name <$> entities g) /\ NoDup (triple <$> relations g).


(** The graph [read_graph_file] returns in [legacy_world]. *)
Definition legacy_loaded : KnowledgeGraph :=
  mkGraph
    [mkEntity "Dana" "Person" "2024-06-01T12:00:00" "2024-06-01T12:00:00"
       [mkObservation "likes coffee" "2024-06-01T12:00:00";
        mkObservation "plays chess" "2024-07-01T08:00:00"];
     mkEntity "Eve" "Person" "2025-03-01T09:00:1" "2025-03-01T09:00:2"
       [mkObservation "is new" "2025-03-01T09:00:1"]]
    [mkRelation "Dana" "Eve" "knows" "2025-03-01T09:00:3"].

(** A handler after which, when it returns under a clock that never reads as
    the empty string, the file holds the dump of a graph that the next load
    returns as it is. *)
Definition saves_what_loads {A} (m : M A) : Prop :=
  forall w r w',
    (forall n, clock w n <> "") ->
    m w = (Ok r, w') ->
    exists graph,
      disk w' = FileOf (Json (model_dump graph))
      /\ fst (read_graph_file w') = Ok graph.

(** A handler that keeps a property of the graph: run on a file that loads
    as a graph with the property, when it returns it has saved a graph with
    the property. *)
Definition keeps {A} (J : KnowledgeGraph -> Prop) (m : M A) : Prop :=
  forall w g w1 r w',
    read_graph_file w = (Ok g, w1) -> J g ->
    m w = (Ok r, w') ->
    exists g', disk w' = FileOf (Json (model_dump g')) /\ J g'.

(** The names for which a request of [create_entities] creates an entity,
    in order: the non-empty string names that are neither among the names
    seen nor given by an earlier item. *)
Fixpoint new_names (seen : list string) (req : list dict) : list string :=
  match req with
  | [] => []
  | item :: req' =>
      match dict_get "name" JNull item with
      | JStr s =>
          if decide (s = "" \/ s ∈ seen) then new_names seen req'
          else s :: new_names (seen ++ [s]) req'
      | _ => new_names seen req'
      end
  end.

(** The strings among a list of JSON values. *)
Definition strings_of (l : list json) : list string :=
  omap (fun o => match o with JStr s => Some s | _ => None end) l.

(** [e] is the entity [create_entities] makes of [item] at time [t]: the
    name and type of the item (["General"] without a type), both stamps [t],
    and an observation stamped [t] for each string the item lists. *)
Definition created_from (t : string) (item : dict) (e : Entity) : Prop :=
  dict_get "name" JNull item = JStr (name e)
  /\ dict_get "entityType" (JStr "General") item = JStr (entityType e)
  /\ created_at e = t /\ last_modified e = t
  /\ Forall (fun o => timestamp o = t) (observations e)
  /\ match dict_lookup "observations" item with
     | None => observations e = []
     | Some v => exists os, py_iter v = Ok os
                            /\ content <$> observations e = strings_of os
     end.


(** The observations behind the candidate documents, in the order in which
    [retrieve_context] meets them. *)
Definition candidate_observations (lower : string -> string)
    (target_tag : string) (es : list Entity)
  : list Observation :=
  concat ((fun e => if contains target_tag (lower (entityType e))
                    then observations e else []) <$> es).


(** [p] occurs in [s] as a substring. *)
Definition occurs_in (p s : string) : Prop := exists a b, s = a +:+ p +:+ b.

(** The texts of an entity that a search looks at. *)
Definition searched_fields (e : Entity) : list string :=
  name e :: entityType e :: (content <$> observations e).

(** What a search is to find: the entities one of whose texts, lowered, has
    the lowered query as a substring. *)
Definition found_by (lower : string -> string) (query : string) (e : Entity)
  : Prop :=
  exists field,
    field ∈ searched_fields e /\ occurs_in (lower query) (lower field).

(** [item.get("name") == s] *)
Definition is_named (s : string) (item : dict) : bool :=
  match dict_get "name" JNull item with
  | JStr s' => bool_decide (s' = s)
  | _ => false
  end.

(** The first item of a request whose name is [s]. *)
Definition first_named (s : string) (req : list dict) : option dict :=
  head (filter (fun item => is_named s item = true) req).


(** * Properties *)

(** ** The request monad *)

Lemma advance_0 w : advance 0 w = w.
Proof. by destruct w. Qed.

Lemma advance_advance n m w : advance n (advance m w) = advance (n + m) w.
Proof. unfold advance; simpl. f_equal. lia. Qed.

Lemma now_run w : now w = (Ok (clock w (ticks w)), advance 1 w).
Proof. reflexivity. Qed.

Lemma bind_ok {A B} (m : M A) (k : A -> M B) w a w' :
  m w = (Ok a, w') -> bind m k w = k a w'.
Proof. unfold bind. by intros ->. Qed.

Lemma bind_lift_ok {A B} (a : A) (k : A -> M B) w :
  bind (lift (Ok a)) k w = k a w.
Proof. reflexivity. Qed.

(** On a dict the turn of the relations loop reads the clock exactly when
    the key is missing. *)
Lemma load_relation_dict d w :
  load_relation (JObj d) w
  = (if dict_has "created_at" d then lift (Relation_kwargs d)
     else t <- now ;;
          lift (Relation_kwargs (d ++ [("created_at", JStr t)]))) w.
Proof.
  unfold load_relation. simpl py_in. rewrite bind_lift_ok.
  by destruct (dict_has "created_at" d).
Qed.

(** A loop whose every turn succeeds and advances the clock by a fixed number
    of readings. *)
Lemma for_each_fmap_ok {A B} (f : A -> M B) (d : B -> A) (P : B -> Prop)
    (n : nat) (l : list B) :
  (forall x w, P x -> f (d x) w = (Ok x, advance n w)) ->
  Forall P l ->
  forall w, for_each f (d <$> l) w = (Ok l, advance (length l * n) w).
Proof.
  intros Hf Hl. induction Hl as [|x l Hx Hl IH]; intros w; simpl.
  - by rewrite advance_0.
  - rewrite (bind_ok _ _ _ _ _ (Hf x w Hx)).
    rewrite (bind_ok _ _ _ _ _ (IH _)). unfold ret.
    rewrite advance_advance. do 2 f_equal. lia.
Qed.

(** ** Round trip through the memory file *)

Lemma load_observation_dump ct o :
  load_observation ct (dump_observation o) = Ok o.
Proof. by destruct o. Qed.

Lemma load_relation_dump r w :
  load_relation (dump_relation r) w = (Ok r, advance 0 w).
Proof. rewrite advance_0. by destruct r. Qed.

Lemma truthy_JStr s : truthy (JStr s) = negb (bool_decide (s = "")).
Proof. reflexivity. Qed.

Lemma load_entity_dump e w :
  created_at e <> "" ->
  load_entity (dump_entity e) w = (Ok e, advance 1 w).
Proof.
  intros Hc. destruct e as [n ty c lm obs]; simpl in Hc.
  unfold load_entity, dump_entity; simpl.
  rewrite bind_lift_ok.
  assert (Hct : creation_time_of
                  [("name", JStr n); ("entityType", JStr ty);
                   ("created_at", JStr c); ("last_modified", JStr lm);
                   ("observations", JArr (dump_observation <$> obs))] w
                = (Ok (JStr c), w)).
  { unfold creation_time_of.
    change (dict_get "created_at" JNull _) with (JStr c).
    rewrite truthy_JStr, bool_decide_eq_false_2 by done. reflexivity. }
  rewrite (bind_ok _ _ _ _ _ Hct).
  change (dict_get "observations" _ _)
    with (JArr (dump_observation <$> obs)).
  simpl py_iter. rewrite bind_lift_ok.
  assert (Hobs : for_each (fun o => lift (load_observation (JStr c) o))
                   (dump_observation <$> obs) w = (Ok obs, w)).
  { rewrite (for_each_fmap_ok _ _ (fun _ => True) 0).
    - by rewrite Nat.mul_0_r, advance_0.
    - intros x w' _. unfold lift.
      by rewrite load_observation_dump, advance_0.
    - by apply Forall_true. }
  rewrite (bind_ok _ _ _ _ _ Hobs). reflexivity.
Qed.

Lemma load_data_dump g w :
  Forall (fun e => created_at e <> "") (entities g) ->
  load_data (model_dump g) w = (Ok g, advance (length (entities g)) w).
Proof.
  intros Hg. destruct g as [es rs]; simpl in *.
  unfold load_data, model_dump; simpl.
  rewrite bind_lift_ok.
  change (dict_get "entities" _ _) with (JArr (dump_entity <$> es)).
  simpl py_iter. rewrite bind_lift_ok.
  rewrite (bind_ok _ _ _ _ _
             (for_each_fmap_ok load_entity dump_entity _ 1 es
                (fun x w' H => load_entity_dump x w' H) Hg w)).
  change (dict_get "relations" _ _) with (JArr (dump_relation <$> rs)).
  simpl py_iter. rewrite bind_lift_ok.
  rewrite (bind_ok _ _ _ _ _
             (for_each_fmap_ok load_relation dump_relation (fun _ => True) 0 rs
                (fun x w' _ => load_relation_dump x w') (Forall_true _ _ (fun _ => I)) _)).
  unfold ret. rewrite advance_advance. do 2 f_equal. lia.
Qed.




(** ** Loading a stored document *)

Lemma reading_mono clk lo hi lo' hi' s :
  lo' <= lo -> hi <= hi' -> reading clk lo hi s -> reading clk lo' hi' s.
Proof. intros ? ? (n & ? & ->). exists n. split; [lia | done]. Qed.

Lemma backfilled_mono clk lo hi lo' hi' e ent :
  lo' <= lo -> hi <= hi' ->
  backfilled clk lo hi e ent -> backfilled clk lo' hi' e ent.
Proof.
  intros ? ? (? & ? & Hc & Hl & ?). repeat split; try done.
  - destruct (nonempty _); [done|].
    destruct (nonempty _); [done|]. by eapply reading_mono.
  - destruct (stored_str "last_modified" e); [done|]. by eapply reading_mono.
Qed.

Lemma stamped_mono clk lo hi lo' hi' r rel :
  lo' <= lo -> hi <= hi' ->
  stamped clk lo hi r rel -> stamped clk lo' hi' r rel.
Proof.
  intros ? ? (? & ? & ? & Hc). repeat split; try done.
  destruct (stored_str "created_at" r); [done|]. by eapply reading_mono.
Qed.

(** A loop whose turns all succeed, each within its own span of readings. *)
Lemma for_each_stored {A B} (f : A -> M B) (p : A -> bool)
    (R : nat -> nat -> A -> B -> Prop) (w : World) (l : list A) :
  (forall lo hi lo' hi' x y,
      lo' <= lo -> hi <= hi' -> R lo hi x y -> R lo' hi' x y) ->
  (forall x k, p x = true ->
      exists y k', f x (advance k w) = (Ok y, advance (k' + k) w)
                   /\ R (k + ticks w) (k' + k + ticks w) x y) ->
  forallb p l = true ->
  forall k, exists ys k',
    for_each f l (advance k w) = (Ok ys, advance (k' + k) w)
    /\ Forall2 (R (k + ticks w) (k' + k + ticks w)) l ys.
Proof.
  intros Hmono Hf. induction l as [|x l IH]; simpl; intros Hl k.
  - exists [], 0. split; [done | constructor].
  - apply andb_true_iff in Hl as [Hx Hl].
    destruct (Hf x k Hx) as (y & k1 & Hy & HR).
    destruct (IH Hl (k1 + k)) as (ys & k2 & Hys & HRs).
    exists (y :: ys), (k2 + k1). split.
    + rewrite (bind_ok _ _ _ _ _ Hy), (bind_ok _ _ _ _ _ Hys).
      unfold ret. do 2 f_equal. lia.
    + constructor.
      * eapply Hmono; [| |exact HR]; lia.
      * eapply Forall2_impl; [exact HRs|].
        intros a b Hab. eapply Hmono; [| |exact Hab]; lia.
Qed.

Lemma load_observation_stored c o :
  stored_observation o = true ->
  exists ob, load_observation (JStr c) o = Ok ob /\ upgraded c o ob.
Proof.
  destruct o as [| | | |s|l|d]; try discriminate; simpl.
  - intros _. by eexists.
  - unfold has_str, kw_field. intros [H1 H2]%andb_true_iff.
    destruct (dict_lookup "content" d) as [[| | | |s1| |]|]; try discriminate.
    destruct (dict_lookup "timestamp" d) as [[| | | |s2| |]|]; try discriminate.
    by eexists.
Qed.

Lemma load_observations_stored c os w :
  forallb stored_observation os = true ->
  exists obs,
    for_each (fun o => lift (load_observation (JStr c) o)) os w = (Ok obs, w)
    /\ Forall2 (upgraded c) os obs.
Proof.
  induction os as [|o os IH]; simpl.
  - intros _. exists []. split; [done | constructor].
  - intros [Ho Hos]%andb_true_iff.
    destruct (load_observation_stored c o Ho) as (ob & Hob & Hup).
    destruct (IH Hos) as (obs & Hobs & Hups).
    exists (ob :: obs). split; [|by constructor].
    unfold lift at 1. rewrite Hob. unfold bind at 1.
    by rewrite (bind_ok _ _ _ _ _ Hobs).
Qed.

Lemma creation_time_stored d w k :
  may_have_str "created_at" d = true ->
  may_have_str "last_modified" d = true ->
  exists ct kc,
    creation_time_of d (advance k w) = (Ok (JStr ct), advance (kc + k) w)
    /\ match nonempty (stored_str "created_at" (JObj d)),
             nonempty (stored_str "last_modified" (JObj d)) with
       | Some c, _ => ct = c
       | None, Some lm => ct = lm
       | None, None => reading (clock w) (k + ticks w) (kc + k + ticks w) ct
       end.
Proof.
  unfold may_have_str, creation_time_of, dict_get, stored_str, nonempty.
  intros Hc Hl.
  destruct (dict_lookup "created_at" d) as [[| | | |c| |]|];
    try discriminate; rewrite ?truthy_JStr.
  1: destruct (decide (c = "")) as [->|Hne];
       [rewrite !bool_decide_eq_true_2 by done
       |rewrite !bool_decide_eq_false_2 by done; by exists c, 0].
  all: destruct (dict_lookup "last_modified" d) as [[| | | |lm| |]|];
    try discriminate; rewrite ?truthy_JStr.
  all: try (destruct (decide (lm = "")) as [->|Hne];
            [rewrite !bool_decide_eq_true_2 by done
            |rewrite !bool_decide_eq_false_2 by done; by exists lm, 0]).
  all: exists (clock w (k + ticks w)), 1; split; [reflexivity|];
       exists (k + ticks w); split; [lia | reflexivity].
Qed.

Lemma load_entity_stored e w k :
  stored_entity e = true ->
  exists ent k',
    load_entity e (advance k w) = (Ok ent, advance (k' + k) w)
    /\ backfilled (clock w) (k + ticks w) (k' + k + ticks w) e ent.
Proof.
  destruct e as [| | | | | |d]; try discriminate; simpl.
  rewrite !andb_true_iff. intros [[[[Hn Hty] Hc] Hl] Ho].
  destruct (creation_time_stored d w k Hc Hl) as (ct & kc & Hct & Hrule).
  unfold load_entity. simpl get_method. rewrite bind_lift_ok.
  rewrite (bind_ok _ _ _ _ _ Hct).
  assert (exists os, py_iter (dict_get "observations" (JArr []) d) = Ok os
                     /\ forallb stored_observation os = true
                     /\ stored_items "observations" (JObj d) = os)
    as (os & -> & Hos & Hitems).
  { unfold may_have_all in Ho. unfold dict_get, stored_items.
    destruct (dict_lookup "observations" d) as [[| | | | |l|]|];
      try discriminate; by eexists. }
  rewrite bind_lift_ok.
  destruct (load_observations_stored ct os (advance (kc + k) w) Hos)
    as (obs & Hobs & Hups).
  rewrite (bind_ok _ _ _ _ _ Hobs).
  unfold has_str in Hn, Hty. unfold dict_item.
  destruct (dict_lookup "name" d) as [[| | | |n| |]|] eqn:En; try discriminate.
  destruct (dict_lookup "entityType" d) as [[| | | |ty| |]|] eqn:Ety;
    try discriminate.
  rewrite !bind_lift_ok. rewrite (bind_ok _ _ _ _ _ (now_run _)).
  rewrite advance_advance.
  unfold may_have_str in Hl. unfold dict_get.
  unfold stored_str in Hrule.
  destruct (dict_lookup "last_modified" d) as [[| | | |lm| |]|] eqn:Elm;
    try discriminate; simpl Entity_new; unfold lift.
  all: eexists _, (1 + kc); split; [by rewrite Nat.add_assoc|].
  all: unfold backfilled, stored_str;
       cbn [name entityType created_at last_modified observations];
       rewrite En, Ety, Elm, Hitems; repeat split; try done.
  - destruct (nonempty _); [done|]. destruct (nonempty _); [done|].
    revert Hrule. apply reading_mono; lia.
  - destruct (nonempty _); [done|]. simpl in *.
    revert Hrule. apply reading_mono; lia.
  - exists (kc + k + ticks w). split; [lia | reflexivity].
Qed.

Lemma dict_lookup_app k d d' :
  dict_lookup k (d ++ d')
  = match dict_lookup k d with
    | Some v => Some v
    | None => dict_lookup k d'
    end.
Proof.
  induction d as [|[k0 v0] d IH]; simpl; [done|].
  by destruct (bool_decide (k0 = k)).
Qed.

Lemma load_relation_stored r w k :
  stored_relation r = true ->
  exists rel k',
    load_relation r (advance k w) = (Ok rel, advance (k' + k) w)
    /\ stamped (clock w) (k + ticks w) (k' + k + ticks w) r rel.
Proof.
  destruct r as [| | | | | |d]; try discriminate; simpl.
  rewrite load_relation_dict.
  rewrite !andb_true_iff. unfold has_str, may_have_str, dict_has.
  intros [[[Hf Ht] Hty] Hc].
  destruct (dict_lookup "from" d) as [[| | | |f| |]|] eqn:Ef; try discriminate.
  destruct (dict_lookup "to" d) as [[| | | |t| |]|] eqn:Et; try discriminate.
  destruct (dict_lookup "relationType" d) as [[| | | |ty| |]|] eqn:Ety;
    try discriminate.
  destruct (dict_lookup "created_at" d) as [[| | | |c| |]|] eqn:Ec;
    try discriminate.
  - exists (mkRelation f t ty c), 0. split.
    + unfold lift, Relation_kwargs, kw_field. by rewrite Ef, Et, Ety, Ec.
    + unfold stamped, stored_str. by rewrite Ef, Et, Ety, Ec.
  - exists (mkRelation f t ty (clock w (k + ticks w))), 1. split.
    + rewrite (bind_ok _ _ _ _ _ (now_run _)), advance_advance.
      unfold lift, Relation_kwargs, kw_field.
      rewrite !dict_lookup_app, Ef, Et, Ety, Ec. reflexivity.
    + unfold stamped, stored_str. rewrite Ef, Et, Ety, Ec.
      repeat split. exists (k + ticks w). split; [lia | reflexivity].
Qed.

Lemma stored_items_iter key d p :
  may_have_all key p d = true ->
  py_iter (dict_get key (JArr []) d) = Ok (stored_items key (JObj d))
  /\ forallb p (stored_items key (JObj d)) = true.
Proof.
  unfold may_have_all, dict_get, stored_items.
  by destruct (dict_lookup key d) as [[| | | | |l|]|].
Qed.

Lemma load_data_stored data w :
  stored_graph data = true ->
  exists g k,
    load_data data w = (Ok g, advance k w)
    /\ Forall2 (backfilled (clock w) (ticks w) (k + ticks w))
         (stored_items "entities" data) (entities g)
    /\ Forall2 (stamped (clock w) (ticks w) (k + ticks w))
         (stored_items "relations" data) (relations g).
Proof.
  destruct data as [| | | | | |d]; try discriminate.
  unfold stored_graph. intros [He Hr]%andb_true_iff.
  apply stored_items_iter in He as [He1 He2], Hr as [Hr1 Hr2].
  destruct (for_each_stored load_entity stored_entity
              (backfilled (clock w)) w _
              (backfilled_mono (clock w))
              (fun x k => load_entity_stored x w k) He2 0)
    as (ents & k1 & Hents & HRe).
  destruct (for_each_stored load_relation stored_relation
              (stamped (clock w)) w _
              (stamped_mono (clock w))
              (fun x k => load_relation_stored x w k) Hr2 (k1 + 0))
    as (rels & k2 & Hrels & HRr).
  rewrite advance_0 in Hents.
  exists (mkGraph ents rels), (k2 + (k1 + 0)). split; [|split].
  - unfold load_data. simpl get_method. rewrite bind_lift_ok, He1, bind_lift_ok.
    rewrite (bind_ok _ _ _ _ _ Hents), Hr1, bind_lift_ok.
    by rewrite (bind_ok _ _ _ _ _ Hrels).
  - eapply Forall2_impl; [exact HRe|]. intros a b.
    apply backfilled_mono; lia.
  - eapply Forall2_impl; [exact HRr|]. intros a b.
    apply stamped_mono; lia.
Qed.

(** C8: a stored document of the graph shape loads, and the graph returned
    holds, item for item, every stored entity with its missing [created_at]
    taken from the stored [last_modified] or else from the clock, a missing
    [last_modified] taken from the clock, every bare-string observation
    turned into an observation stamped with the [created_at] of the entity
    as returned, and every stored relation with a missing [created_at] read
    from the clock. *)
Theorem load_backfills_provenance (w : World) (data : json) :
  disk w = FileOf (Json data) ->
  stored_graph data = true ->
  exists g w',
    read_graph_file w = (Ok g, w')
    /\ disk w' = disk w /\ clock w' = clock w /\ ticks w <= ticks w'
    /\ Forall2 (backfilled (clock w) (ticks w) (ticks w'))
         (stored_items "entities" data) (entities g)
    /\ Forall2 (stamped (clock w) (ticks w) (ticks w'))
         (stored_items "relations" data) (relations g).
Proof.
  intros Hd Hs. destruct (load_data_stored data w Hs) as (g & k & Hg & He & Hr).
  exists g, (advance k w). unfold read_graph_file. rewrite Hd.
  repeat split; try done. simpl; lia.
Qed.

Lemma load_backfills_provenance_witness :
  exists g w',
    read_graph_file legacy_world = (Ok g, w')
    /\ disk w' = disk legacy_world /\ clock w' = clock legacy_world
    /\ ticks legacy_world <= ticks w'
    /\ Forall2 (backfilled sample_clock 0 (ticks w'))
         (stored_items "entities" legacy_doc) (entities g)
    /\ Forall2 (stamped sample_clock 0 (ticks w'))
         (stored_items "relations" legacy_doc) (relations g).
Proof.
  apply (load_backfills_provenance legacy_world legacy_doc); reflexivity.
Defined.

(** The legacy document, loaded. *)
Example load_legacy_doc :
  fst (read_graph_file legacy_world)
  = Ok (mkGraph
          [mkEntity "Dana" "Person" "2024-06-01T12:00:00" "2024-06-01T12:00:00"
             [mkObservation "likes coffee" "2024-06-01T12:00:00";
              mkObservation "plays chess" "2024-07-01T08:00:00"];
           mkEntity "Eve" "Person" "2025-03-01T09:00:1" "2025-03-01T09:00:2"
             [mkObservation "is new" "2025-03-01T09:00:1"]]
          [mkRelation "Dana" "Eve" "knows" "2025-03-01T09:00:3"]).
Proof. reflexivity. Qed.

(** ** Failure modes of the load *)

(** C2, as amended: the load returns the empty graph, raises nothing and
    leaves the clock alone when the file is absent, when its text is blank
    and when [json.loads] rejects it with a [JSONDecodeError]; and it
    returns a graph, raising nothing, for every JSON document of the
    stored-graph shape.  Elsewhere the load can raise, file and clock left
    as they were: a file that is not UTF-8 raises a [UnicodeDecodeError],
    any other exception of [json.loads] leaves the load as it is, and a
    JSON document that is not an object raises an [AttributeError]. *)
Theorem load_degrades_to_empty_graph (w : World) :
  (disk w = NoFile \/ disk w = FileOf Whitespace \/ disk w = FileOf NotJson ->
   read_graph_file w = (Ok empty_graph, w))
  /\ (forall data, disk w = FileOf (Json data) -> stored_graph data = true ->
      is_ok (fst (read_graph_file w)) = true)
  /\ (disk w = FileOf NotUtf8 ->
      read_graph_file w = (Raise UnicodeDecodeError, w))
  /\ (forall e, disk w = FileOf (Unloadable e) ->
      read_graph_file w = (Raise e, w))
  /\ (forall data, disk w = FileOf (Json data) ->
      (forall d, data <> JObj d) ->
      read_graph_file w = (Raise AttributeError, w)).
Proof.
  split_and!.
  - unfold read_graph_file. by intros [-> | [-> | ->]].
  - intros data Hd Hs. unfold read_graph_file. rewrite Hd.
    by destruct (load_data_stored data w Hs) as (g & k & -> & _).
  - unfold read_graph_file. by intros ->.
  - intros e He. unfold read_graph_file. by rewrite He.
  - intros data Hd Hno. unfold read_graph_file. rewrite Hd.
    destruct data as [| | | | | |d]; try done. by destruct (Hno d).
Qed.

Lemma load_degrades_to_empty_graph_witness :
  read_graph_file fresh_world = (Ok empty_graph, fresh_world)
  /\ is_ok (fst (read_graph_file legacy_world)) = true
  /\ read_graph_file (mkWorld (FileOf NotUtf8) sample_clock 0)
     = (Raise UnicodeDecodeError, mkWorld (FileOf NotUtf8) sample_clock 0)
  /\ read_graph_file (mkWorld (FileOf (Unloadable RecursionError))
                        sample_clock 0)
     = (Raise RecursionError,
        mkWorld (FileOf (Unloadable RecursionError)) sample_clock 0)
  /\ read_graph_file (mkWorld (FileOf (Json (JInt 7))) sample_clock 0)
     = (Raise AttributeError, mkWorld (FileOf (Json (JInt 7))) sample_clock 0).
Proof.
  split_and!.
  - apply (load_degrades_to_empty_graph fresh_world). by left.
  - apply (proj1 (proj2 (load_degrades_to_empty_graph legacy_world))
             legacy_doc); reflexivity.
  - by apply (proj1 (proj2 (proj2 (load_degrades_to_empty_graph
                (mkWorld (FileOf NotUtf8) sample_clock 0))))).
  - by apply (proj1 (proj2 (proj2 (proj2 (load_degrades_to_empty_graph
                (mkWorld (FileOf (Unloadable RecursionError))
                   sample_clock 0)))))).
  - apply (proj2 (proj2 (proj2 (proj2
             (load_degrades_to_empty_graph
                (mkWorld (FileOf (Json (JInt 7))) sample_clock 0)))))
             (JInt 7)); [reflexivity | discriminate].
Defined.

(** C2 fails as stated: a file that parses as JSON but is not a graph makes
    the load raise.  The file holding [[]] raises an [AttributeError], and
    the file holding [{"entities": [{}]}] a [KeyError]. *)
Lemma load_raises_on_unexpected_json :
  fst (read_graph_file (mkWorld (FileOf (Json (JArr []))) sample_clock 0))
  = Raise AttributeError
  /\ fst (read_graph_file
            (mkWorld (FileOf (Json (JObj [("entities", JArr [JObj []])])))
               sample_clock 0))
     = Raise (KeyError "name").
Proof. split; reflexivity. Qed.

(** ** delete_entities *)



(** The scenario of the cascade: deleting [A] leaves [B] and no relation. *)
Example delete_a_leaves_b :
  disk (snd (delete_entities ["A"] (world_of ab_graph)))
  = FileOf (Json (model_dump (mkGraph [node_b] []))).
Proof. reflexivity. Qed.

(** The end-to-end scenario on an empty store. *)
Example alice_bob_scenario :
  fst ((create_entities
          [[("name", JStr "Alice"); ("entityType", JStr "Person");
            ("observations", JArr [JStr "likes tea"])]] ;;;
        create_entities [[("name", JStr "Bob"); ("entityType", JStr "Person")]] ;;;
        create_relations [mkRelation "Alice" "Bob" "knows" ""] ;;;
        delete_entities ["Alice"] ;;;
        read_graph) fresh_world)
  = Ok (mkGraph [mkEntity "Bob" "Person" "2025-03-01T09:00:2"
                   "2025-03-01T09:00:2" []] []).
Proof. reflexivity. Qed.

(** ** Handlers that only read *)

Lemma reads_only_ret {A} (a : A) : reads_only (ret a).
Proof. intros w r w' [= <- <-]. auto. Qed.

Lemma reads_only_lift {A} (x : result A) : reads_only (lift x).
Proof. intros w r w' [= <- <-]. auto. Qed.

Lemma reads_only_now : reads_only now.
Proof. intros w r w' [= <- <-]. simpl. auto. Qed.

Lemma reads_only_bind {A B} (m : M A) (k : A -> M B) :
  reads_only m -> (forall a, reads_only (k a)) -> reads_only (bind m k).
Proof.
  intros Hm Hk w r w'. unfold bind.
  destruct (m w) as [[a|e] w1] eqn:E.
  - intros Hka. destruct (Hm _ _ _ E) as (Hd1 & Hc1 & ?).
    destruct (Hk _ _ _ _ Hka) as (Hd2 & Hc2 & ?).
    split_and!; [congruence | congruence | lia].
  - intros [= <- <-]. exact (Hm _ _ _ E).
Qed.

Lemma reads_only_for_each {A B} (f : A -> M B) l :
  (forall x, reads_only (f x)) -> reads_only (for_each f l).
Proof.
  intros Hf. induction l as [|x l IH]; simpl.
  - apply reads_only_ret.
  - apply reads_only_bind; [done|]. intros y.
    apply reads_only_bind; [done|]. intros ys. apply reads_only_ret.
Qed.

Lemma reads_only_load_entity e : reads_only (load_entity e).
Proof.
  unfold load_entity.
  repeat first
    [ apply reads_only_bind; [|intros ?]
    | apply reads_only_lift | apply reads_only_now | apply reads_only_ret
    | apply reads_only_for_each; intros ? ].
  unfold creation_time_of.
  repeat match goal with |- reads_only (if ?b then _ else _) => destruct b end;
  repeat first
    [ apply reads_only_bind; [|intros ?]
    | apply reads_only_now | apply reads_only_ret ].
Qed.

Lemma reads_only_load_relation r : reads_only (load_relation r).
Proof.
  unfold load_relation.
  apply reads_only_bind; [apply reads_only_lift|]. intros [].
  - apply reads_only_lift.
  - apply reads_only_bind; [apply reads_only_now|]. intros ?.
    apply reads_only_bind; [apply reads_only_lift|]. intros ?.
    apply reads_only_lift.
Qed.

Lemma reads_only_read_graph_file : reads_only read_graph_file.
Proof.
  assert (H : forall data, reads_only (load_data data)).
  2: { intros w r w'. unfold read_graph_file.
       destruct (disk w) as [|[| | |e|data]] eqn:Ed; rewrite <- Ed;
         try (intros [= <- <-]; auto). apply H. }
  intros data. unfold load_data.
  repeat first
    [ apply reads_only_load_entity | apply reads_only_load_relation
    | apply reads_only_for_each; intros ?
    | apply reads_only_bind; [|intros ?]
    | apply reads_only_lift | apply reads_only_ret ].
Qed.

(** ** create_entities and create_relations *)

Lemma names_of_snoc es e : {[ name e ]} ∪ names_of es = names_of (es ++ [e]).
Proof. unfold names_of. rewrite fmap_app, list_to_set_app_L. set_solver. Qed.

Lemma elem_of_names_of s es : s ∈ names_of es <-> s ∈ name <$> es.
Proof. unfold names_of. apply elem_of_list_to_set. Qed.

Lemma triples_of_snoc rs r r' :
  triple r' = triple r ->
  {[ triple r ]} ∪ triples_of rs = triples_of (rs ++ [r']).
Proof.
  intros H. unfold triples_of. rewrite fmap_app, list_to_set_app_L. simpl.
  rewrite H. set_solver.
Qed.

Lemma elem_of_triples_of t rs : t ∈ triples_of rs <-> t ∈ triple <$> rs.
Proof. unfold triples_of. apply elem_of_list_to_set. Qed.

Lemma NoDup_snoc {A} (l : list A) x : NoDup l -> x ∉ l -> NoDup (l ++ [x]).
Proof.
  intros Hl Hx. apply NoDup_app. split_and!; [done| |apply NoDup_singleton].
  intros y Hy ->%list_elem_of_singleton. by apply Hx.
Qed.

Lemma filter_none {A} (P : A -> Prop) `{!forall x, Decision (P x)} (l : list A) :
  (forall x, x ∈ l -> ~ P x) -> filter P l = [].
Proof.
  induction l as [|x l IH]; intros Hl; [done|].
  rewrite filter_cons. destruct (decide (P x)) as [HP|_].
  - exfalso. apply (Hl x); [by left | done].
  - apply IH. intros y ?. apply Hl. by right.
Qed.

Lemma filter_all {A} (P : A -> Prop) `{!forall x, Decision (P x)} (l : list A) :
  (forall x, x ∈ l -> P x) -> filter P l = l.
Proof.
  induction l as [|x l IH]; intros Hl; [done|].
  rewrite filter_cons. destruct (decide (P x)) as [_|HP].
  - f_equal. apply IH. intros y ?. apply Hl. by right.
  - exfalso. apply HP, Hl. by left.
Qed.


(** The loop of [create_relations], from a list whose triples are those of
    the set [existing]. *)
Lemma create_relations_loop t req rs :
  exists added,
    foldl (create_relation t) (rs, triples_of rs) req
    = (rs ++ added, triples_of (rs ++ added))
    /\ (NoDup (triple <$> rs) -> NoDup (triple <$> (rs ++ added)))
    /\ (forall r, r ∈ req -> triple r ∈ triple <$> (rs ++ added))
    /\ Forall (fun a => exists r, r ∈ req /\ triple a = triple r
                 /\ rel_created_at a
                    = (if bool_decide (rel_created_at r = "") then t
                       else rel_created_at r)) added.
Proof.
  revert rs. induction req as [|r req IH]; intros rs; simpl.
  - exists []. rewrite app_nil_r. split_and!; try done.
    by intros r ?%elem_of_nil.
  - unfold create_relation at 2. simpl.
    destruct (decide (triple r ∈ triples_of rs)) as [Hin|Hnin].
    + rewrite bool_decide_eq_false_2 by (by intros H; apply H).
      destruct (IH rs) as (added & -> & Hnd & Hreq & Hadd).
      exists added. split_and!; try done.
      * intros r' [->|]%elem_of_cons; [|by apply Hreq].
        rewrite fmap_app. apply elem_of_app. left.
        by apply elem_of_triples_of.
      * eapply Forall_impl; [exact Hadd|]. intros a (r' & ? & ?).
        exists r'. split; [by apply elem_of_cons; right | done].
    + rewrite bool_decide_eq_true_2 by done.
      set (r' := if bool_decide (rel_created_at r = "")
                 then mkRelation (from_ r) (to r) (relationType r) t else r).
      assert (Htr : triple r' = triple r).
      { unfold r'. by destruct (bool_decide _). }
      rewrite (triples_of_snoc rs r r' Htr).
      destruct (IH (rs ++ [r'])) as (added & -> & Hnd & Hreq & Hadd).
      exists (r' :: added). rewrite <- !app_assoc in *. simpl in *.
      split_and!; try done.
      * intros Hrs. apply Hnd. rewrite fmap_app. simpl.
        apply NoDup_snoc; [done|]. rewrite Htr.
        by rewrite <- elem_of_triples_of.
      * intros r0 [->|]%elem_of_cons; [|by apply Hreq].
        rewrite fmap_app. apply elem_of_app. right. simpl.
        rewrite Htr. by left.
      * constructor.
        -- exists r. split_and!; [by left | done |].
           unfold r'. by destruct (bool_decide _).
        -- eapply Forall_impl; [exact Hadd|]. intros a (r0 & ? & ?).
           exists r0. split; [by apply elem_of_cons; right | done].
Qed.


Lemma initial_observations_stamped t item obs :
  initial_observations t item = Ok obs ->
  Forall (fun o => timestamp o = t) obs.
Proof.
  unfold initial_observations.
  destruct (dict_lookup "observations" item) as [v|]; [|by intros [= <-]].
  destruct (py_iter v) as [os|]; [|done]. simpl. intros [= <-].
  induction os as [|o os IH]; simpl; [constructor|].
  destruct o; simpl; try done. by constructor.
Qed.

(** One turn of the loop of [create_entities] that does not raise: the item
    is skipped (no usable name, or a name that exists), or one entity with a
    new name is appended. *)
Lemma create_entity_step t es item st' :
  create_entity t (es, names_of es) item = Ok st' ->
  (st' = (es, names_of es)
   /\ (truthy (dict_get "name" JNull item) = false
       \/ exists s, dict_get "name" JNull item = JStr s /\ s ∈ name <$> es))
  \/ (exists e,
        st' = (es ++ [e], names_of (es ++ [e]))
        /\ dict_get "name" JNull item = JStr (name e)
        /\ name e <> "" /\ (name e ∉ name <$> es)
        /\ created_at e = t /\ last_modified e = t
        /\ Forall (fun o => timestamp o = t) (observations e)).
Proof.
  unfold create_entity. simpl.
  destruct (truthy (dict_get "name" JNull item)) eqn:Htr.
  2: { intros [= <-]. left. auto. }
  destruct (dict_get "name" JNull item) as [| | | |s| |]; try done.
  simpl not_in_names. simpl rbind.
  destruct (decide (s ∈ names_of es)) as [Hin|Hnin].
  { rewrite bool_decide_eq_false_2 by (by intros H; apply H).
    intros [= <-]. left. split; [done|]. right. exists s.
    split; [done|]. by apply elem_of_names_of. }
  rewrite bool_decide_eq_true_2 by done.
  destruct (dict_get "entityType" (JStr "General") item) as [| | | |ty| |];
    try done.
  simpl. destruct (initial_observations t item) as [obs|] eqn:Hobs; [|done].
  simpl. intros [= <-]. right. eexists (mkEntity s ty t t obs).
  rewrite <- names_of_snoc. simpl. split_and!; try done.
  - rewrite truthy_JStr in Htr. intros ->. done.
  - by rewrite <- elem_of_names_of.
  - by eapply initial_observations_stamped.
Qed.

Lemma create_entities_loop t req es st' :
  rfold (create_entity t) req (es, names_of es) = Ok st' ->
  exists added,
    st' = (es ++ added, names_of (es ++ added))
    /\ (NoDup (name <$> es) -> NoDup (name <$> (es ++ added)))
    /\ (forall item s, item ∈ req -> dict_get "name" JNull item = JStr s ->
        s <> "" -> s ∈ name <$> (es ++ added))
    /\ (forall item, item ∈ req ->
        truthy (dict_get "name" JNull item) = false
        \/ exists s, dict_get "name" JNull item = JStr s)
    /\ Forall (fun e =>
                 created_at e = t /\ last_modified e = t
                 /\ Forall (fun o => timestamp o = t) (observations e)
                 /\ exists item, item ∈ req
                      /\ dict_get "name" JNull item = JStr (name e)) added.
Proof.
  revert es. induction req as [|item req IH]; intros es; simpl.
  - intros [= <-]. exists []. rewrite app_nil_r.
    split_and!; try done.
    + by intros ? ? ?%elem_of_nil.
    + by intros ? ?%elem_of_nil.
  - destruct (create_entity t (es, names_of es) item) as [st1|] eqn:Hstep;
      [|done]. simpl.
    apply create_entity_step in Hstep
      as [[-> Hskip] | (e & -> & Hn & Hne & Hfresh & Hc & Hl & Ho)];
      intros Hrest; apply IH in Hrest
        as (added & -> & Hnd & Hreq & Hok & Hadd).
    + exists added. split_and!; try done.
      * intros item' s [->|]%elem_of_cons Hs Hnonempty; [|by eapply Hreq].
        rewrite fmap_app. apply elem_of_app. left.
        destruct Hskip as [Hf | (s' & Hs' & ?)].
        -- rewrite Hs, truthy_JStr, bool_decide_eq_false_2 in Hf; done.
        -- congruence.
      * intros item' [->|]%elem_of_cons; [|by apply Hok].
        destruct Hskip as [? | (s' & ? & _)]; eauto.
      * eapply Forall_impl; [exact Hadd|].
        intros a (? & ? & ? & item' & ? & ?). split_and!; try done.
        exists item'. split; [by right | done].
    + exists (e :: added). rewrite <- !app_assoc in *. simpl in *.
      split_and!; try done.
      * intros Hes. apply Hnd. rewrite fmap_app. simpl.
        by apply NoDup_snoc.
      * intros item' s [->|]%elem_of_cons Hs Hnonempty; [|by eapply Hreq].
        rewrite fmap_app. apply elem_of_app. right. simpl.
        assert (s = name e) as -> by congruence. by left.
      * intros item' [->|]%elem_of_cons; [|by apply Hok]. eauto.
      * constructor.
        -- split_and!; try done. exists item. split; [by left | done].
        -- eapply Forall_impl; [exact Hadd|].
           intros a (? & ? & ? & item' & ? & ?). split_and!; try done.
           exists item'. split; [by right | done].
Qed.


Lemma initial_observations_contents t item obs :
  initial_observations t item = Ok obs ->
  match dict_lookup "observations" item with
  | None => obs = []
  | Some v => exists os, py_iter v = Ok os /\ content <$> obs = strings_of os
  end.
Proof.
  unfold initial_observations.
  destruct (dict_lookup "observations" item) as [v|]; [|by intros [= <-]].
  destruct (py_iter v) as [os|]; [|done]. simpl. intros [= <-].
  exists os. split; [done|]. unfold strings_of.
  induction os as [|o os IH]; [done|].
  destruct o; simpl; try done. f_equal. exact IH.
Qed.

Lemma new_names_cons seen item req :
  new_names seen (item :: req)
  = new_names seen [item] ++ new_names (seen ++ new_names seen [item]) req.
Proof.
  simpl. destruct (dict_get "name" JNull item);
    rewrite ?app_nil_r; try done.
  destruct (decide _); simpl; by rewrite ?app_nil_r.
Qed.

(** One turn of the loop of [create_entities] that does not raise, in full:
    what it appends and for which name. *)
Lemma create_entity_shape t es item st' :
  create_entity t (es, names_of es) item = Ok st' ->
  exists added,
    st' = (es ++ added, names_of (es ++ added))
    /\ name <$> added = new_names (name <$> es) [item]
    /\ Forall (created_from t item) added.
Proof.
  unfold create_entity. simpl.
  destruct (truthy (dict_get "name" JNull item)) eqn:Htr.
  2: { intros [= <-]. exists []. rewrite app_nil_r. split_and!; try done.
       destruct (dict_get "name" JNull item) as [| | | |s| |]; try done.
       rewrite truthy_JStr in Htr. apply negb_false_iff in Htr.
       apply bool_decide_eq_true in Htr as ->.
       rewrite decide_True; [done | by left]. }
  destruct (dict_get "name" JNull item) as [| | | |s| |] eqn:Hn; try done.
  assert (Hne : s <> "").
  { rewrite truthy_JStr in Htr. by intros ->. }
  simpl not_in_names. simpl rbind.
  destruct (decide (s ∈ names_of es)) as [Hin|Hnin].
  { rewrite bool_decide_eq_false_2 by (by intros H; apply H).
    intros [= <-]. exists []. rewrite app_nil_r. split_and!; try done.
    rewrite decide_True; [done|]. right. by apply elem_of_names_of. }
  rewrite bool_decide_eq_true_2 by done.
  destruct (dict_get "entityType" (JStr "General") item) as [| | | |ty| |]
    eqn:Hty; try done.
  simpl. destruct (initial_observations t item) as [obs|] eqn:Hobs; [|done].
  simpl. intros [= <-]. exists [mkEntity s ty t t obs].
  rewrite <- names_of_snoc. simpl. split_and!; try done.
  - rewrite decide_False; [done|].
    intros [?|Hin]; [done|]. by apply Hnin, elem_of_names_of.
  - constructor; [|done]. unfold created_from. simpl.
    rewrite Hn, Hty. split_and!; try done.
    + by eapply initial_observations_stamped.
    + by apply (initial_observations_contents t).
Qed.

Lemma new_names_fresh seen req s :
  s ∈ new_names seen req -> s <> "" /\ (s ∉ seen).
Proof.
  revert seen. induction req as [|item req IH]; intros seen; simpl.
  - by intros ?%elem_of_nil.
  - destruct (dict_get "name" JNull item) as [| | | |s'| |]; try apply IH.
    destruct (decide _) as [|Hnew]; [apply IH|].
    intros [->|Hin]%elem_of_cons; [tauto|].
    apply IH in Hin as [? Hnin]. split; [done|].
    intros ?. apply Hnin, elem_of_app. by left.
Qed.

Lemma new_names_covers seen item s :
  dict_get "name" JNull item = JStr s -> s <> "" ->
  s ∈ seen ++ new_names seen [item].
Proof.
  intros Hs Hne. simpl. rewrite Hs.
  destruct (decide _) as [[?|?]|?]; [done | |]; apply elem_of_app.
  - by left.
  - right. by left.
Qed.

Lemma first_named_here s item req :
  dict_get "name" JNull item = JStr s -> first_named s (item :: req) = Some item.
Proof.
  intros Hs. unfold first_named. rewrite filter_cons.
  rewrite decide_True; [done|].
  unfold is_named. rewrite Hs. by apply bool_decide_eq_true_2.
Qed.

Lemma first_named_later s item req :
  (dict_get "name" JNull item <> JStr s) ->
  first_named s (item :: req) = first_named s req.
Proof.
  intros Hs. unfold first_named. rewrite filter_cons.
  rewrite decide_False; [done|]. unfold is_named.
  destruct (dict_get "name" JNull item) as [| | | |s'| |]; try done.
  rewrite bool_decide_eq_false_2; [done|]. congruence.
Qed.

Lemma first_named_elem s req item :
  first_named s req = Some item ->
  item ∈ req /\ dict_get "name" JNull item = JStr s.
Proof.
  unfold first_named. intros H%head_Some_elem_of.
  apply list_elem_of_filter in H as [Hn ?]. split; [done|].
  unfold is_named in Hn.
  destruct (dict_get "name" JNull item) as [| | | |s'| |]; try done.
  by apply bool_decide_eq_true in Hn as ->.
Qed.

(** The loop of [create_entities] when it does not raise: the entities it
    appends, in order, are those of the new names of the request, each made
    of the first item that gives its name. *)
Lemma create_entities_shape t req es st' :
  rfold (create_entity t) req (es, names_of es) = Ok st' ->
  exists added,
    st' = (es ++ added, names_of (es ++ added))
    /\ name <$> added = new_names (name <$> es) req
    /\ Forall (fun e => exists item,
                 first_named (name e) req = Some item
                 /\ created_from t item e) added.
Proof.
  revert es. induction req as [|item req IH]; intros es.
  - intros [= <-]. exists []. rewrite app_nil_r. by split_and!.
  - cbn [rfold].
    destruct (create_entity t (es, names_of es) item) as [st1|] eqn:Hstep;
      [|done]. cbn [rbind].
    apply create_entity_shape in Hstep as (added1 & -> & Hn1 & Hc1).
    intros (added2 & -> & Hn2 & Hc2)%IH.
    exists (added1 ++ added2). rewrite app_assoc. split_and!; try done.
    + rewrite new_names_cons, fmap_app, Hn1, Hn2.
      by rewrite fmap_app, Hn1.
    + apply Forall_app. split.
      * eapply Forall_impl; [exact Hc1|]. intros e Hc. exists item.
        split; [|done]. apply first_named_here. by destruct Hc as [? _].
      * apply Forall_forall. intros e He.
        destruct (proj1 (Forall_forall _ _) Hc2 e He) as (item' & Hf & Hc).
        exists item'. split; [|done].
        rewrite first_named_later; [done|]. intros Hs.
        assert (Hin : name e ∈ new_names (name <$> es ++ added1) req).
        { rewrite <- Hn2. by apply list_elem_of_fmap_2. }
        apply new_names_fresh in Hin as [Hne Hnin]. apply Hnin.
        rewrite fmap_app, Hn1. by apply new_names_covers.
Qed.




Lemma create_entities_run req w w1 g :
  read_graph_file w = (Ok g, w1) ->
  create_entities req w
  = match rfold (create_entity (clock w1 (ticks w1))) req
            (entities g, names_of (entities g)) with
    | Ok st => (Ok "Entities created",
                saved (mkGraph st.1 (relations g)) (advance 1 w1))
    | Raise e => (Raise e, advance 1 w1)
    end.
Proof.
  intros Hload. unfold create_entities.
  rewrite (bind_ok _ _ _ _ _ Hload), (bind_ok _ _ _ _ _ (now_run _)).
  unfold lift, bind at 1. by destruct (rfold _ _ _).
Qed.

Lemma create_relations_run req w w1 g :
  read_graph_file w = (Ok g, w1) ->
  create_relations req w
  = (Ok "Relations created",
     saved (mkGraph (entities g)
              (foldl (create_relation (clock w1 (ticks w1)))
                 (relations g, triples_of (relations g)) req).1)
       (advance 1 w1)).
Proof.
  intros Hload. unfold create_relations.
  by rewrite (bind_ok _ _ _ _ _ Hload), (bind_ok _ _ _ _ _ (now_run _)).
Qed.



(** Creating [Alice] twice: the second request changes nothing in the graph
    (the first creation's observation and timestamps stay). *)
Example create_alice_twice :
  let item := [("name", JStr "Alice"); ("entityType", JStr "Person");
               ("observations", JArr [JStr "likes tea"])] in
  let again := [("name", JStr "Alice"); ("entityType", JStr "Robot");
                ("observations", JArr [JStr "likes oil"])] in
  fst ((create_entities [item] ;;; read_graph) fresh_world)
  = Ok (mkGraph [mkEntity "Alice" "Person" "2025-03-01T09:00:0"
                   "2025-03-01T09:00:0"
                   [mkObservation "likes tea" "2025-03-01T09:00:0"]] [])
  /\ fst ((create_entities [item] ;;; create_entities [again] ;;; read_graph)
            fresh_world)
     = fst ((create_entities [item] ;;; read_graph) fresh_world).
Proof. split; reflexivity. Qed.

(** ** Updating the entity found by name *)

Section UpdateFoundFacts.
Context {A : Type} (hit : A -> string -> Prop).
Context `{!forall a n, Decision (hit a n)}.
Variable f : A -> Entity -> Entity.
Hypothesis f_name : forall a e, name (f a e) = name e.


Lemma update_found_names es a :
  name <$> update_found hit f es a = name <$> es.
Proof.
  unfold update_found.
  destruct (list_find _ es) as [[i e]|] eqn:E; [|done].
  apply list_find_Some in E as (Hi & _ & _).
  rewrite list_fmap_insert, f_name. apply list_insert_id.
  by rewrite list_lookup_fmap, Hi.
Qed.


Lemma foldl_update_found_names req es :
  name <$> foldl (update_found hit f) es req = name <$> es.
Proof.
  revert es. induction req as [|a req IH]; intros es; simpl; [done|].
  by rewrite IH, update_found_names.
Qed.



End UpdateFoundFacts.

(** ** add_observations *)






Lemma add_observation_item_fst t st item :
  (add_observation_item t st item).1
  = update_found names_item (touch_entity t) st.1 item.
Proof.
  unfold add_observation_item, update_found, find_entity, touch_entity.
  destruct (list_find _ st.1) as [[i e]|]; [|done].
  by destruct (0 <? _).
Qed.

Lemma add_observations_loop t req st :
  (foldl (add_observation_item t) st req).1
  = foldl (update_found names_item (touch_entity t)) st.1 req.
Proof.
  revert st. induction req as [|item req IH]; intros st; simpl; [done|].
  by rewrite IH, add_observation_item_fst.
Qed.




(** Adding ["plays go"] to [Alice] twice: one observation, and the second
    call leaves [last_modified] where the first put it. *)
Example add_plays_go_twice :
  let req := [mkObservationItem "Alice" ["plays go"]] in
  fst ((add_observations req ;;; read_graph) (world_of sample_graph))
  = Ok (mkGraph
          [mkEntity "Alice" "Person" "2025-01-01T10:00:00" "2025-03-01T09:00:2"
             [mkObservation "likes tea" "2025-01-01T10:00:00";
              mkObservation "plays go" "2025-03-01T09:00:2"];
           bob]
          [alice_knows_bob])
  /\ fst ((add_observations req ;;; add_observations req ;;; read_graph)
            (world_of sample_graph))
     = fst ((add_observations req ;;; read_graph) (world_of sample_graph)).
Proof. split; reflexivity. Qed.

(** ** delete_observations *)






Section AppliedFirst.
Context {A : Type} (hit : A -> string -> Prop).
Context `{!forall a n, Decision (hit a n)}.
Hypothesis hit_one : forall a n m, hit a n -> hit a m -> n = m.

End AppliedFirst.





(** A deletion that matches no observation of [Alice] still touches her. *)
Example delete_miss_still_touches :
  fst ((delete_observations
          [[("entityName", JStr "Alice");
            ("observations", JArr [JStr "likes coffee"])]] ;;;
        read_graph) (world_of sample_graph))
  = Ok (mkGraph
          [mkEntity "Alice" "Person" "2025-01-01T10:00:00" "2025-03-01T09:00:2"
             [mkObservation "likes tea" "2025-01-01T10:00:00"];
           bob]
          [alice_knows_bob]).
Proof. reflexivity. Qed.

(** ** open_nodes and search_nodes *)

Lemma append_empty_r s : s +:+ "" = s.
Proof.
  induction s as [|c s IH]; [done|].
  change (String c (s +:+ "") = String c s). by rewrite IH.
Qed.

Lemma is_prefix_spec p s :
  is_prefix p s = true <-> exists b, s = p +:+ b.
Proof.
  revert s. induction p as [|c p IH]; intros s; simpl.
  - split; [by exists s | done].
  - destruct s as [|c' s]; simpl.
    + split; [done | by intros [b ?]].
    + rewrite andb_true_iff, bool_decide_eq_true, IH. split.
      * intros [-> [b ->]]. by exists b.
      * intros [b [= -> ->]]. split; [done | by exists b].
Qed.

(** [contains] is the substring test. *)
Lemma contains_spec p s :
  contains p s = true <-> exists a b, s = a +:+ p +:+ b.
Proof.
  induction s as [|c s IH]; simpl.
  - rewrite orb_false_r, is_prefix_spec. split.
    + intros [b ->]. by exists "", b.
    + intros (a & b & H). destruct a as [|? a]; [by exists b | done].
  - rewrite orb_true_iff, is_prefix_spec, IH. split.
    + intros [[b ->] | (a & b & ->)]; [by exists "", b|].
      by exists (String c a), b.
    + intros (a & b & H). destruct a as [|c' a]; simpl in H.
      * left. by exists b.
      * right. injection H as -> ->. by exists a, b.
Qed.

Lemma matches_spec lower q e :
  matches lower q e = true <->
  exists field,
    (field = name e \/ field = entityType e
     \/ field ∈ content <$> observations e)
    /\ exists a b, lower field = a +:+ q +:+ b.
Proof.
  unfold matches. rewrite !orb_true_iff, existsb_exists. split.
  - intros [[H|H]|(o & Ho%list_elem_of_In & H)].
    + exists (name e). split; [by left | by apply contains_spec].
    + exists (entityType e). split; [by right; left | by apply contains_spec].
    + exists (content o). split; [|by apply contains_spec].
      right; right. by apply list_elem_of_fmap_2.
  - intros (field & [->|[->|(o & -> & Ho)%list_elem_of_fmap]] & H%contains_spec).
    + by left; left.
    + by left; right.
    + right. exists o. split; [by apply list_elem_of_In | done].
Qed.

(** The test of the loop decides what the search is to find. *)
Lemma matches_found_by lower query e :
  matches lower (lower query) e = true <-> found_by lower query e.
Proof.
  rewrite matches_spec. unfold found_by, occurs_in, searched_fields.
  split; intros (field & Hf & H); exists field; (split; [|done]).
  - rewrite !elem_of_cons. tauto.
  - rewrite !elem_of_cons in Hf. tauto.
Qed.

Lemma search_loop lower q es acc :
  foldl (fun (st : list Entity * gset string) e =>
           if matches lower q e then (st.1 ++ [e], {[ name e ]} ∪ st.2)
           else st)
    (acc, names_of acc) es
  = (acc ++ filter (fun e => matches lower q e = true) es,
     names_of (acc ++ filter (fun e => matches lower q e = true) es)).
Proof.
  revert acc. induction es as [|e es IH]; intros acc; simpl.
  - by rewrite app_nil_r.
  - rewrite filter_cons. destruct (matches lower q e) eqn:Hm; simpl.
    + rewrite names_of_snoc, IH, <- app_assoc. done.
    + done.
Qed.

Lemma search_nodes_of_spec lower q g :
  let found :=
    filter (fun e => matches lower (lower q) e = true) (entities g) in
  search_nodes_of lower q g
  = mkGraph found
      (filter (fun r => from_ r ∈ name <$> found /\ to r ∈ name <$> found)
         (relations g)).
Proof.
  unfold search_nodes_of. simpl.
  change (@nil Entity, ∅ : gset string) with (@nil Entity, names_of []).
  rewrite search_loop. simpl. f_equal.
  apply list_filter_iff. intros r. by rewrite !elem_of_names_of.
Qed.

Lemma open_nodes_of_spec names g :
  let found := filter (fun e => name e ∈ names) (entities g) in
  open_nodes_of names g
  = mkGraph found
      (filter (fun r => from_ r ∈ name <$> found \/ to r ∈ name <$> found)
         (relations g)).
Proof.
  unfold open_nodes_of. simpl.
  assert (Hes : filter (fun e => name e ∈ (list_to_set names : gset string))
                  (entities g)
                = filter (fun e => name e ∈ names) (entities g)).
  { apply list_filter_iff. intros e. apply elem_of_list_to_set. }
  rewrite Hes. f_equal.
  apply list_filter_iff. intros r. by rewrite !elem_of_names_of.
Qed.

(** C7: [open_nodes] returns the entities whose name is among the names
    given, and the relations with at least one endpoint among the names of
    the entities found.  [search_nodes] returns, in the order of the graph,
    the entities one of whose texts (the name, the type, the content of an
    observation), lowered, has the lowered query as a substring, and the
    relations with both endpoints among the names of the entities matched.
    Hence a relation from a found entity is opened whatever its other end,
    and is not returned by a search that finds no entity named as its other
    end.  This holds whatever function [lower] is. *)
Theorem endpoint_inclusion_rules (lower : string -> string) (w w1 : World)
    (g : KnowledgeGraph) :
  read_graph_file w = (Ok g, w1) ->
  (forall names,
      exists sub,
        open_nodes names w = (Ok sub, w1)
        /\ entities sub = filter (fun e => name e ∈ names) (entities g)
        /\ relations sub
           = filter (fun r => from_ r ∈ name <$> entities sub
                              \/ to r ∈ name <$> entities sub) (relations g)
        /\ (forall r e, r ∈ relations g -> e ∈ entities g ->
            name e ∈ names -> name e = from_ r \/ name e = to r ->
            r ∈ relations sub))
  /\ (forall query (dec : forall e, Decision (found_by lower query e)),
        exists sub,
          search_nodes lower query w = (Ok sub, w1)
          /\ entities sub = filter (found_by lower query) (entities g)
          /\ relations sub
             = filter (fun r => from_ r ∈ name <$> entities sub
                                /\ to r ∈ name <$> entities sub) (relations g)
          /\ (forall r, r ∈ relations g ->
              (forall e, e ∈ entities g -> name e = to r ->
                 ~ found_by lower query e) ->
              r ∉ relations sub)).
Proof.
  intros Hload. split.
  - intros names. exists (open_nodes_of names g).
    unfold open_nodes. rewrite (bind_ok _ _ _ _ _ Hload).
    rewrite open_nodes_of_spec. simpl. split_and!; try done.
    intros r e Hr He Hn Hend. apply list_elem_of_filter. split; [|done].
    assert (name e ∈ name <$> filter (fun e => name e ∈ names) (entities g)).
    { apply list_elem_of_fmap_2. by apply list_elem_of_filter. }
    destruct Hend as [<- | <-]; auto.
  - intros query dec. exists (search_nodes_of lower query g).
    unfold search_nodes. rewrite (bind_ok _ _ _ _ _ Hload).
    rewrite search_nodes_of_spec. simpl.
    assert (Hes : filter (fun e => matches lower (lower query) e = true)
                    (entities g)
                  = filter (found_by lower query) (entities g)).
    { apply list_filter_iff. intros e. apply matches_found_by. }
    rewrite Hes. split_and!; try done.
    intros r Hr Hto [[_ Hin] _]%list_elem_of_filter.
    apply list_elem_of_fmap in Hin as (e & Hname & [Hm He]%list_elem_of_filter).
    exact (Hto e He (eq_sym Hname) Hm).
Qed.

Lemma endpoint_inclusion_rules_witness :
  (exists sub,
     open_nodes ["A"] (world_of ab_graph)
     = (Ok sub, advance 2 (world_of ab_graph))
     /\ entities sub = filter (fun e => name e ∈ ["A"]) (entities ab_graph)
     /\ relations sub
        = filter (fun r => from_ r ∈ name <$> entities sub
                           \/ to r ∈ name <$> entities sub)
            (relations ab_graph)
     /\ (forall r e, r ∈ relations ab_graph -> e ∈ entities ab_graph ->
         name e ∈ ["A"] -> name e = from_ r \/ name e = to r ->
         r ∈ relations sub))
  /\ (forall dec : forall e, Decision (found_by ascii_lower "A" e),
      exists sub,
        search_nodes ascii_lower "A" (world_of ab_graph)
        = (Ok sub, advance 2 (world_of ab_graph))
        /\ entities sub
           = filter (found_by ascii_lower "A") (entities ab_graph)
        /\ relations sub
           = filter (fun r => from_ r ∈ name <$> entities sub
                              /\ to r ∈ name <$> entities sub)
               (relations ab_graph)
        /\ (forall r, r ∈ relations ab_graph ->
            (forall e, e ∈ entities ab_graph -> name e = to r ->
               ~ found_by ascii_lower "A" e) ->
            r ∉ relations sub)).
Proof.
  pose proof (endpoint_inclusion_rules ascii_lower (world_of ab_graph)
                (advance 2 (world_of ab_graph)) ab_graph eq_refl) as [Ho Hs].
  split; [exact (Ho ["A"]) | exact (Hs "A")].
Defined.

(** The scenario of the endpoint rules: [A] knows [B] and the query matches
    only [A]. *)
Example open_a_versus_search_a :
  fst (open_nodes ["A"] (world_of ab_graph)) = Ok (mkGraph [node_a] [a_knows_b])
  /\ fst (search_nodes ascii_lower "A" (world_of ab_graph))
     = Ok (mkGraph [node_a] [])
  /\ fst (search_nodes ascii_lower "a" (world_of ab_graph))
     = Ok (mkGraph [node_a] []).
Proof. split_and!; reflexivity. Qed.

(** ** The empty query *)

Lemma contains_empty s : contains "" s = true.
Proof. by destruct s. Qed.

Lemma matches_empty lower e : matches lower "" e = true.
Proof. unfold matches. by rewrite contains_empty. Qed.

(** C10: the empty query matches every entity, so [search_nodes] returns all
    the entities and the relations both of whose endpoints name an entity of
    the graph.  Of [lower] this uses only that the empty string lowers to
    itself, as it does for [str.lower]. *)
Theorem empty_query_returns_everything (lower : string -> string)
    (w w1 : World) (g : KnowledgeGraph) :
  lower "" = "" ->
  read_graph_file w = (Ok g, w1) ->
  search_nodes lower "" w
  = (Ok (mkGraph (entities g)
           (filter (fun r => from_ r ∈ name <$> entities g
                             /\ to r ∈ name <$> entities g) (relations g))),
     w1).
Proof.
  intros Hlow Hload. unfold search_nodes. rewrite (bind_ok _ _ _ _ _ Hload).
  rewrite search_nodes_of_spec. simpl. rewrite Hlow.
  rewrite (filter_all (fun e => matches lower "" e = true)); [done|].
  intros e _. apply matches_empty.
Qed.

Lemma empty_query_returns_everything_witness :
  search_nodes ascii_lower "" (world_of sample_graph)
  = (Ok (mkGraph (entities sample_graph)
           (filter (fun r => from_ r ∈ name <$> entities sample_graph
                             /\ to r ∈ name <$> entities sample_graph)
              (relations sample_graph))),
     advance 2 (world_of sample_graph)).
Proof.
  apply (empty_query_returns_everything ascii_lower (world_of sample_graph));
    reflexivity.
Defined.

(** A dangling relation is left out even by the empty query. *)
Example empty_query_drops_dangling :
  fst (search_nodes ascii_lower ""
         (world_of (mkGraph [node_a] [a_knows_b])))
  = Ok (mkGraph [node_a] []).
Proof. reflexivity. Qed.

(** ** retrieve_context *)

Lemma collect_observations_fst (st : list string * gmap string Observation)
    (obs : list Observation) :
  (foldl (fun (st : list string * gmap string Observation) o =>
            (st.1 ++ [content o], <[content o := o]> st.2)) st obs).1
  = st.1 ++ (content <$> obs).
Proof.
  revert st. induction obs as [|o obs IH]; intros st; simpl.
  - by rewrite app_nil_r.
  - rewrite IH. simpl. by rewrite <- app_assoc.
Qed.

Lemma collect_candidates_from lower target_tag es
    (st : list string * gmap string Observation) :
  (foldl (fun st entity =>
            if contains target_tag (lower (entityType entity))
            then foldl (fun (st : list string * gmap string Observation) obs =>
                          (st.1 ++ [content obs], <[content obs := obs]> st.2))
                   st (observations entity)
            else st) st es).1
  = st.1 ++ candidates_of lower target_tag es.
Proof.
  revert st. induction es as [|e es IH]; intros st.
  - unfold candidates_of. simpl. by rewrite app_nil_r.
  - simpl. rewrite IH. unfold candidates_of. rewrite fmap_cons. simpl.
    destruct (contains target_tag (lower (entityType e))).
    + by rewrite collect_observations_fst, app_assoc.
    + done.
Qed.

Lemma collect_candidates_fst lower target_tag es :
  (collect_candidates lower target_tag es).1
  = candidates_of lower target_tag es.
Proof. unfold collect_candidates. by rewrite collect_candidates_from. Qed.

Lemma no_candidates lower target_tag es :
  (forall e, e ∈ es ->
     contains target_tag (lower (entityType e)) = true ->
     observations e = []) ->
  candidates_of lower target_tag es = [].
Proof.
  unfold candidates_of. induction es as [|e es IH]; intros H; [done|].
  rewrite fmap_cons. simpl. rewrite IH.
  - rewrite app_nil_r.
    destruct (contains target_tag (lower (entityType e))) eqn:E; [|done].
    rewrite (H e); [done | by left | done].
  - intros e' ?. apply H. by right.
Qed.

(** C9: without an engine [retrieve_context] answers that the engine is not
    loaded, and touches nothing, the file not even read.  With an engine the
    file is loaded first, outside the handler of the ranking.  When the load
    returns a graph the request answers "No memories found." with no result
    if no entity whose lowered type contains the lowered tag has an
    observation, answers with the message of the exception if the ranking
    raises, and in every case returns a response and raises nothing.  When
    the load raises, the request raises the same exception.  This holds
    whatever function [lower] is. *)
Theorem retrieve_context_soft_fails (lower : string -> string) (score : Type)
    (round4 : score -> score) (req : RetrieveContextRequest) (w : World) :
  retrieve_context lower round4 None req w
  = (Ok (ErrorResponse "WordLlama engine not loaded."), w)
  /\ (forall (rank : engine score) g w1,
       read_graph_file w = (Ok g, w1) ->
       ((forall e, e ∈ entities g ->
           occurs_in (lower (canonical_entity req)) (lower (entityType e)) ->
           observations e = []) ->
        retrieve_context lower round4 (Some rank) req w
        = (Ok (NoMemories (canonical_entity req) [] "No memories found."), w1))
       /\ (forall msg,
            candidates_of lower (lower (canonical_entity req)) (entities g)
            <> [] ->
            rank (query_thought req)
              (candidates_of lower (lower (canonical_entity req))
                 (entities g))
            = inl msg ->
            retrieve_context lower round4 (Some rank) req w
            = (Ok (ErrorResponse ("Reranking failed: " +:+ msg)), w1))
       /\ is_ok (fst (retrieve_context lower round4 (Some rank) req w)) = true)
  /\ (forall (rank : engine score) e w1,
       read_graph_file w = (Raise e, w1) ->
       retrieve_context lower round4 (Some rank) req w = (Raise e, w1)).
Proof.
  split_and!; [reflexivity | |].
  - intros rank g w1 Hload.
    unfold retrieve_context. rewrite (bind_ok _ _ _ _ _ Hload).
    rewrite collect_candidates_fst. split_and!.
    + intros Hnone. rewrite no_candidates; [done|].
      intros e He Hc. apply Hnone; [done|]. by apply contains_spec.
    + intros msg Hsome Hrank.
      destruct (candidates_of _ _ _) as [|d ds] eqn:E; [done|].
      by rewrite Hrank.
    + destruct (candidates_of _ _ _) as [|d ds]; [done|].
      by destruct (rank _ _).
  - intros rank e w1 Hload. unfold retrieve_context, bind. by rewrite Hload.
Qed.

Lemma retrieve_context_soft_fails_witness :
  retrieve_context ascii_lower (fun s : nat => s) None
    (mkRetrieveContextRequest "person" "what does she drink" 3)
    (world_of sample_graph)
  = (Ok (ErrorResponse "WordLlama engine not loaded."), world_of sample_graph)
  /\ retrieve_context ascii_lower (fun s : nat => s) (Some echo_engine)
       (mkRetrieveContextRequest "robot" "what does she drink" 3)
       (world_of sample_graph)
     = (Ok (NoMemories "robot" [] "No memories found."),
        advance 2 (world_of sample_graph))
  /\ retrieve_context ascii_lower (fun s : nat => s) (Some failing_engine)
       (mkRetrieveContextRequest "PERSON" "what does she drink" 3)
       (world_of sample_graph)
     = (Ok (ErrorResponse "Reranking failed: model crashed"),
        advance 2 (world_of sample_graph))
  /\ retrieve_context ascii_lower (fun s : nat => s) (Some echo_engine)
       (mkRetrieveContextRequest "person" "what does she drink" 3)
       (mkWorld (FileOf NotUtf8) sample_clock 0)
     = (Raise UnicodeDecodeError, mkWorld (FileOf NotUtf8) sample_clock 0).
Proof.
  split_and!.
  - apply (retrieve_context_soft_fails ascii_lower nat (fun s => s)).
  - apply (proj1 (proj2 (retrieve_context_soft_fails ascii_lower nat
                           (fun s => s)
                           (mkRetrieveContextRequest "robot"
                              "what does she drink" 3)
                           (world_of sample_graph)))
             echo_engine sample_graph (advance 2 (world_of sample_graph))
             eq_refl).
    intros e He Hc. apply contains_spec in Hc.
    repeat (apply elem_of_cons in He as [->|He]); try done.
    by apply elem_of_nil in He.
  - apply (proj1 (proj2 (retrieve_context_soft_fails ascii_lower nat
                           (fun s => s)
                           (mkRetrieveContextRequest "PERSON"
                              "what does she drink" 3)
                           (world_of sample_graph)))
             failing_engine sample_graph (advance 2 (world_of sample_graph))
             eq_refl); done.
  - apply (proj2 (proj2 (retrieve_context_soft_fails ascii_lower nat
                           (fun s => s)
                           (mkRetrieveContextRequest "person"
                              "what does she drink" 3)
                           (mkWorld (FileOf NotUtf8) sample_clock 0)))
             echo_engine UnicodeDecodeError
             (mkWorld (FileOf NotUtf8) sample_clock 0) eq_refl).
Defined.

(** C9 fails as stated: the file is loaded before the handler of the ranking
    is entered, so with an engine configured an exception of the load leaves
    the request.  On the file holding [[]], in which no candidate exists, the
    request raises an [AttributeError]. *)
Lemma retrieve_context_raises_when_load_raises :
  fst (retrieve_context ascii_lower (fun s : nat => s) (Some echo_engine)
         (mkRetrieveContextRequest "person" "what does she drink" 3)
         (mkWorld (FileOf (Json (JArr []))) sample_clock 0))
  = Raise AttributeError.
Proof. reflexivity. Qed.

(** With an engine that answers, the hits carry the timestamp of the
    observation they come from. *)
Example retrieve_context_ranks :
  fst (retrieve_context ascii_lower (fun s : nat => s) (Some echo_engine)
         (mkRetrieveContextRequest "Person" "what does she drink" 3)
         (world_of sample_graph))
  = Ok (Ranked "Person" "what does she drink"
          [mkHit "likes tea" 1 "2025-01-01T10:00:00"]).
Proof. reflexivity. Qed.

(** * Further properties of the endpoints *)

(** ** delete_relations *)



(** ** What the handlers do to the file *)



(** X2: the handlers that answer queries never write: whatever the file
    holds and whatever they return or raise, [read_graph], [open_nodes],
    [search_nodes] and [retrieve_context] leave the file and the clock as
    they found them. *)
Theorem queries_never_write :
  reads_only read_graph
  /\ (forall names, reads_only (open_nodes names))
  /\ (forall lower query, reads_only (search_nodes lower query))
  /\ (forall lower (score : Type) (round4 : score -> score) wl req,
        reads_only (retrieve_context lower round4 wl req)).
Proof.
  split_and!.
  - apply reads_only_read_graph_file.
  - intros names. unfold open_nodes.
    apply reads_only_bind; [apply reads_only_read_graph_file|].
    intros g. apply reads_only_ret.
  - intros lower query. unfold search_nodes.
    apply reads_only_bind; [apply reads_only_read_graph_file|].
    intros g. apply reads_only_ret.
  - intros lower score round4 [rank|] req; simpl; [|apply reads_only_ret].
    apply reads_only_bind; [apply reads_only_read_graph_file|].
    intros g. destruct (collect_candidates _ _ _).1; [apply reads_only_ret|].
    destruct (rank _ _); apply reads_only_ret.
Qed.





(** ** Saving and loading again *)









(** ** The graph a handler saves is the graph the next one loads *)

Lemma bind_Ok_inv {A B} (m : M A) (k : A -> M B) w b w' :
  bind m k w = (Ok b, w') ->
  exists a w1, m w = (Ok a, w1) /\ k a w1 = (Ok b, w').
Proof.
  unfold bind. destruct (m w) as [[a|e] w1]; [|done]. intros H. eauto.
Qed.

Lemma lift_Ok_inv {A} (r : result A) w a w' :
  lift r w = (Ok a, w') -> r = Ok a /\ w' = w.
Proof. by intros [= -> ->]. Qed.

Lemma rbind_Ok_inv {A B} (r : result A) (k : A -> result B) b :
  rbind r k = Ok b -> exists a, r = Ok a /\ k a = Ok b.
Proof. destruct r as [a|e]; [|done]. simpl. eauto. Qed.

(** A loop keeps what each of its turns keeps. *)
Lemma for_each_Ok_Forall {A B} (f : A -> M B) (Q : B -> Prop)
    (I : World -> Prop) (l : list A) :
  (forall x w y w', I w -> f x w = (Ok y, w') -> Q y /\ I w') ->
  forall w ys w', I w -> for_each f l w = (Ok ys, w') ->
  Forall Q ys /\ I w'.
Proof.
  intros Hf. induction l as [|x l IH]; simpl; intros w ys w' HI.
  - intros [= <- <-]. by split.
  - intros (y & w1 & Hy & Hrest)%bind_Ok_inv.
    apply bind_Ok_inv in Hrest as (ys' & w2 & Hys & [= <- <-]).
    destruct (Hf _ _ _ _ HI Hy) as [HQ HI1].
    destruct (IH _ _ _ HI1 Hys) as [HQs HI2]. split; [by constructor | done].
Qed.

Lemma creation_time_truthy d w v w' :
  (forall n, clock w n <> "") ->
  creation_time_of d w = (Ok v, w') -> truthy v = true.
Proof.
  intros Hclk. unfold creation_time_of.
  destruct (truthy (dict_get "created_at" JNull d)) eqn:Hc.
  { by intros [= <- <-]. }
  destruct (truthy (dict_get "last_modified" JNull d)) eqn:Hl.
  { by intros [= <- <-]. }
  intros [= <- <-]. rewrite truthy_JStr. by rewrite bool_decide_eq_false_2.
Qed.

Lemma load_entity_created_at e w ent w' :
  (forall n, clock w n <> "") ->
  load_entity e w = (Ok ent, w') ->
  created_at ent <> "" /\ forall n, clock w' n <> "".
Proof.
  intros Hclk Hrun.
  assert (clock w' = clock w) as Hsame
    by (by destruct (reads_only_load_entity e _ _ _ Hrun) as (_ & ? & _)).
  split; [|by rewrite Hsame].
  unfold load_entity in Hrun.
  apply bind_Ok_inv in Hrun as (d & w1 & [_ ->]%lift_Ok_inv & Hrun).
  apply bind_Ok_inv in Hrun as (ct & w2 & Hct & Hrun).
  apply (creation_time_truthy _ _ _ _ Hclk) in Hct.
  apply bind_Ok_inv in Hrun as (os & w3 & _ & Hrun).
  apply bind_Ok_inv in Hrun as (obs & w4 & _ & Hrun).
  apply bind_Ok_inv in Hrun as (n & w5 & _ & Hrun).
  apply bind_Ok_inv in Hrun as (ty & w6 & _ & Hrun).
  apply bind_Ok_inv in Hrun as (t & w7 & _ & Hrun).
  apply lift_Ok_inv in Hrun as [Hnew _]. unfold Entity_new in Hnew.
  apply rbind_Ok_inv in Hnew as (n' & _ & Hnew).
  apply rbind_Ok_inv in Hnew as (ty' & _ & Hnew).
  apply rbind_Ok_inv in Hnew as (c' & Hc & Hnew).
  apply rbind_Ok_inv in Hnew as (lm' & _ & [= <-]). simpl.
  destruct ct; try done. injection Hc as ->.
  rewrite truthy_JStr in Hct. intros ->. done.
Qed.

Lemma loaded_created_at w g w' :
  (forall n, clock w n <> "") ->
  read_graph_file w = (Ok g, w') ->
  Forall (fun e => created_at e <> "") (entities g).
Proof.
  intros Hclk. unfold read_graph_file.
  destruct (disk w) as [|[| | |e0|data]]; try (by intros [= <- <-]).
  unfold load_data.
  intros (d & w1 & [_ ->]%lift_Ok_inv & Hrun)%bind_Ok_inv.
  apply bind_Ok_inv in Hrun as (es & w2 & [_ ->]%lift_Ok_inv & Hrun).
  apply bind_Ok_inv in Hrun as (ents & w3 & Hents & Hrun).
  apply bind_Ok_inv in Hrun as (rs & w4 & _ & Hrun).
  apply bind_Ok_inv in Hrun as (rels & w5 & _ & [= <- <-]). simpl.
  apply (for_each_Ok_Forall load_entity _ (fun w => forall n, clock w n <> "")
           es (fun x w y w' H => load_entity_created_at x w y w' H)
           _ _ _ Hclk Hents).
Qed.

Lemma reload_dump g w :
  Forall (fun e => created_at e <> "") (entities g) ->
  disk w = FileOf (Json (model_dump g)) ->
  fst (read_graph_file w) = Ok g.
Proof.
  intros Hg Hd. unfold read_graph_file. rewrite Hd.
  by rewrite load_data_dump.
Qed.


Lemma sample_clock_nonempty n : sample_clock n <> "".
Proof. unfold sample_clock. simpl. discriminate. Qed.


Lemma for_fold_Ok_inv {A S} (f : S -> A -> M S) (J : S -> Prop) (l : list A) :
  (forall s x w s' w', J s -> f s x w = (Ok s', w') -> J s') ->
  forall s w s' w', J s -> for_fold f l s w = (Ok s', w') -> J s'.
Proof.
  intros Hf. induction l as [|x l IH]; simpl; intros s w s' w' HJ.
  - by intros [= <- <-].
  - intros (s1 & w1 & Hs1 & Hrest)%bind_Ok_inv.
    eapply IH; [|exact Hrest]. by eapply Hf.
Qed.

Section UpdateFoundKeeps.
Context {A : Type} (hit : A -> string -> Prop).
Context `{!forall a n, Decision (hit a n)}.
Variable f : A -> Entity -> Entity.
Variable P : Entity -> Prop.
Hypothesis f_keeps : forall a e, P e -> P (f a e).

Lemma update_found_Forall es a :
  Forall P es -> Forall P (update_found hit f es a).
Proof.
  intros Hes. unfold update_found.
  destruct (list_find _ es) as [[i e]|] eqn:E; [|done].
  apply list_find_Some in E as (Hi & _ & _).
  apply Forall_insert; [done|]. apply f_keeps.
  by eapply (proj1 (Forall_lookup _ _) Hes).
Qed.

Lemma foldl_update_found_Forall req es :
  Forall P es -> Forall P (foldl (update_found hit f) es req).
Proof.
  revert es. induction req as [|a req IH]; intros es Hes; simpl; [done|].
  by apply IH, update_found_Forall.
Qed.
End UpdateFoundKeeps.

Lemma Forall_filter_keeps {A} (P Q : A -> Prop) `{!forall x, Decision (Q x)}
    (l : list A) :
  Forall P l -> Forall P (filter Q l).
Proof.
  rewrite !Forall_forall. intros Hl x [_ Hx]%list_elem_of_filter.
  by apply Hl.
Qed.

Lemma delete_observation_item_Forall (P : Entity -> Prop) es item w es' w' :
  (forall e t obs,
     P e -> P (mkEntity (name e) (entityType e) (created_at e) t obs)) ->
  Forall P es ->
  delete_observation_item es item w = (Ok es', w') ->
  Forall P es'.
Proof.
  intros HP Hes. unfold delete_observation_item.
  destruct (list_find _ es) as [[i e]|] eqn:E; [|by intros [= <- <-]].
  apply list_find_Some in E as (Hi & _ & _).
  intros (obs & w1 & _ & Hrun)%bind_Ok_inv.
  apply bind_Ok_inv in Hrun as (t & w2 & _ & [= <- <-]).
  apply Forall_insert; [done|]. apply HP.
  by eapply (proj1 (Forall_lookup _ _) Hes).
Qed.

Lemma saved_reloads graph clk t :
  Forall (fun e => created_at e <> "") (entities graph) ->
  exists graph',
    disk {| disk := FileOf (Json (model_dump graph)); clock := clk;
            ticks := t |}
    = FileOf (Json (model_dump graph'))
    /\ fst (read_graph_file
              {| disk := FileOf (Json (model_dump graph)); clock := clk;
                 ticks := t |}) = Ok graph'.
Proof. intros H. exists graph. split; [done|]. by apply reload_dump. Qed.

(** X6: under a clock that never reads as the empty string, whenever a
    handler that changes the graph returns, the file holds the dump of a
    graph and the next load returns exactly that graph: nothing a handler
    saves is altered by the backfill of the load. *)
Theorem mutations_save_what_loads :
  (forall req, saves_what_loads (create_entities req))
  /\ (forall req, saves_what_loads (create_relations req))
  /\ (forall req, saves_what_loads (add_observations req))
  /\ (forall names, saves_what_loads (delete_entities names))
  /\ (forall req, saves_what_loads (delete_observations req))
  /\ (forall req, saves_what_loads (delete_relations req)).
Proof.
  split_and!; intros req w r w' Hclk Hrun.
  - unfold create_entities in Hrun.
    apply bind_Ok_inv in Hrun as (g & w1 & Hload & Hrun).
    pose proof (loaded_created_at _ _ _ Hclk Hload) as Hg.
    destruct (reads_only_read_graph_file _ _ _ Hload) as (_ & Hsame & _).
    apply bind_Ok_inv in Hrun as (t & w2 & [= <- <-] & Hrun).
    apply bind_Ok_inv in Hrun as (st & w3 & [Hloop ->]%lift_Ok_inv & Hrun).
    injection Hrun as _ <-.
    apply create_entities_loop in Hloop as (added & -> & _ & _ & _ & Hadd).
    apply saved_reloads. simpl. apply Forall_app. split; [done|].
    eapply Forall_impl; [exact Hadd|]. intros e (-> & _).
    rewrite Hsame. apply Hclk.
  - unfold create_relations in Hrun.
    apply bind_Ok_inv in Hrun as (g & w1 & Hload & Hrun).
    pose proof (loaded_created_at _ _ _ Hclk Hload) as Hg.
    apply bind_Ok_inv in Hrun as (t & w2 & _ & Hrun).
    injection Hrun as _ <-. by apply saved_reloads.
  - unfold add_observations in Hrun.
    apply bind_Ok_inv in Hrun as (g & w1 & Hload & Hrun).
    pose proof (loaded_created_at _ _ _ Hclk Hload) as Hg.
    apply bind_Ok_inv in Hrun as (t & w2 & _ & Hrun).
    injection Hrun as _ <-. apply saved_reloads. simpl.
    rewrite add_observations_loop. simpl.
    by apply foldl_update_found_Forall.
  - unfold delete_entities in Hrun.
    apply bind_Ok_inv in Hrun as (g & w1 & Hload & Hrun).
    pose proof (loaded_created_at _ _ _ Hclk Hload) as Hg.
    injection Hrun as _ <-. apply saved_reloads. simpl.
    by apply Forall_filter_keeps.
  - unfold delete_observations in Hrun.
    apply bind_Ok_inv in Hrun as (g & w1 & Hload & Hrun).
    pose proof (loaded_created_at _ _ _ Hclk Hload) as Hg.
    apply bind_Ok_inv in Hrun as (es & w2 & Hloop & Hrun).
    injection Hrun as _ <-. apply saved_reloads. simpl.
    eapply (for_fold_Ok_inv delete_observation_item
              (Forall (fun e => created_at e <> ""))); [|exact Hg|exact Hloop].
    intros s x v s' v' Hs. by apply delete_observation_item_Forall.
  - unfold delete_relations in Hrun.
    apply bind_Ok_inv in Hrun as (g & w1 & Hload & Hrun).
    pose proof (loaded_created_at _ _ _ Hclk Hload) as Hg.
    injection Hrun as _ <-. by apply saved_reloads.
Qed.

Lemma mutations_save_what_loads_witness :
  exists graph,
    disk (snd (create_entities [[("name", JStr "Alice")]] fresh_world))
    = FileOf (Json (model_dump graph))
    /\ fst (read_graph_file
              (snd (create_entities [[("name", JStr "Alice")]] fresh_world)))
       = Ok graph.
Proof.
  exact (proj1 mutations_save_what_loads [[("name", JStr "Alice")]]
           fresh_world "Entities created" _ sample_clock_nonempty eq_refl).
Defined.

(** ** Invariants of the graph *)

Lemma NoDup_fmap_filter {A K} (f : A -> K) (P : A -> Prop)
    `{!forall x, Decision (P x)} (l : list A) :
  NoDup (f <$> l) -> NoDup (f <$> filter P l).
Proof.
  induction l as [|x l IH]; [done|].
  rewrite fmap_cons. intros [Hx Hl]%NoDup_cons. rewrite filter_cons.
  destruct (decide (P x)); [|by apply IH].
  rewrite fmap_cons. apply NoDup_cons. split; [|by apply IH].
  intros (y & Hy & [_ Hin]%list_elem_of_filter)%list_elem_of_fmap.
  apply Hx. rewrite Hy. by apply list_elem_of_fmap_2.
Qed.

Lemma delete_observation_item_names es item w es' w' :
  delete_observation_item es item w = (Ok es', w') ->
  name <$> es' = name <$> es.
Proof.
  unfold delete_observation_item.
  destruct (list_find _ es) as [[i e]|] eqn:E; [|by intros [= <- <-]].
  apply list_find_Some in E as (Hi & _ & _).
  intros (obs & w1 & _ & Hrun)%bind_Ok_inv.
  apply bind_Ok_inv in Hrun as (t & w2 & _ & [= <- <-]).
  rewrite list_fmap_insert. simpl. apply list_insert_id.
  by rewrite list_lookup_fmap, Hi.
Qed.

Lemma delete_observations_names req es w es' w' :
  for_fold delete_observation_item req es w = (Ok es', w') ->
  name <$> es' = name <$> es.
Proof.
  intros Hrun.
  apply (for_fold_Ok_inv delete_observation_item
           (fun s => name <$> s = name <$> es) req) with es w w'; try done.
  intros s x v s' v' Hs Hstep.
  by rewrite (delete_observation_item_names _ _ _ _ _ Hstep).
Qed.

Lemma add_observations_names t req es :
  name <$> (foldl (add_observation_item t) (es, []) req).1 = name <$> es.
Proof.
  rewrite add_observations_loop. simpl.
  by apply foldl_update_found_names.
Qed.

(** X7: unique entity names and unique relation triples are kept by every
    handler that changes the graph: if the graph loaded has them, so has the
    graph saved. *)
Theorem unique_keys_are_kept :
  (forall req, keeps unique_keys (create_entities req))
  /\ (forall req, keeps unique_keys (create_relations req))
  /\ (forall req, keeps unique_keys (add_observations req))
  /\ (forall names, keeps unique_keys (delete_entities names))
  /\ (forall req, keeps unique_keys (delete_observations req))
  /\ (forall req, keeps unique_keys (delete_relations req)).
Proof.
  split_and!; intros req w g w1 r w' Hload [Hn Ht].
  - rewrite (create_entities_run req w w1 g Hload).
    destruct (rfold _ req _) as [st|e] eqn:Hloop; [|done].
    apply create_entities_loop in Hloop as (added & -> & Hnd & _).
    intros [= _ <-]. eexists. split; [done|]. split; [by apply Hnd | done].
  - rewrite (create_relations_run req w w1 g Hload).
    destruct (create_relations_loop (clock w1 (ticks w1)) req (relations g))
      as (added & -> & Hnd & _).
    intros [= _ <-]. eexists. split; [done|]. split; [done | by apply Hnd].
  - unfold add_observations.
    rewrite (bind_ok _ _ _ _ _ Hload), (bind_ok _ _ _ _ _ (now_run _)).
    intros [= _ <-]. eexists. split; [done|]. split; [|done]. simpl.
    by rewrite add_observations_names.
  - unfold delete_entities. rewrite (bind_ok _ _ _ _ _ Hload).
    intros [= _ <-]. eexists. split; [done|].
    split; simpl; by apply NoDup_fmap_filter.
  - unfold delete_observations. rewrite (bind_ok _ _ _ _ _ Hload).
    intros (es & w2 & Hloop & [= _ <-])%bind_Ok_inv.
    eexists. split; [done|]. split; [|done]. simpl.
    by rewrite (delete_observations_names _ _ _ _ _ Hloop).
  - unfold delete_relations. rewrite (bind_ok _ _ _ _ _ Hload).
    intros [= _ <-]. eexists. split; [done|].
    split; simpl; [done | by apply NoDup_fmap_filter].
Qed.

(** X8: a graph without dangling relations stays so through every handler
    that changes it, [create_relations] apart: that one checks no endpoint,
    and keeps the property when it is asked only for relations between
    entities that exist. *)
Theorem no_dangling_is_kept :
  (forall req, keeps no_dangling (create_entities req))
  /\ (forall req, keeps no_dangling (add_observations req))
  /\ (forall names, keeps no_dangling (delete_entities names))
  /\ (forall req, keeps no_dangling (delete_observations req))
  /\ (forall req, keeps no_dangling (delete_relations req))
  /\ (forall req,
        keeps (fun g => no_dangling g
                        /\ forall r, r ∈ req ->
                             from_ r ∈ name <$> entities g
                             /\ to r ∈ name <$> entities g)
          (create_relations req)).
Proof.
  split_and!; intros req w g w1 r w' Hload Hg.
  - rewrite (create_entities_run req w w1 g Hload).
    destruct (rfold _ req _) as [st|e] eqn:Hloop; [|done].
    apply create_entities_loop in Hloop as (added & -> & _).
    intros [= _ <-]. eexists. split; [done|].
    intros x Hx. simpl in *. rewrite fmap_app, !elem_of_app.
    destruct (Hg x Hx). auto.
  - unfold add_observations.
    rewrite (bind_ok _ _ _ _ _ Hload), (bind_ok _ _ _ _ _ (now_run _)).
    intros [= _ <-]. eexists. split; [done|].
    intros x Hx. simpl in *. rewrite add_observations_names. by apply Hg.
  - unfold delete_entities. rewrite (bind_ok _ _ _ _ _ Hload).
    intros [= _ <-]. eexists. split; [done|].
    intros x [[Hf Ht] Hx]%list_elem_of_filter. simpl.
    destruct (Hg x Hx) as [(e1 & He1 & Hin1)%list_elem_of_fmap
                             (e2 & He2 & Hin2)%list_elem_of_fmap].
    split.
    + rewrite He1. apply list_elem_of_fmap_2, list_elem_of_filter.
      split; [by rewrite <- He1 | done].
    + rewrite He2. apply list_elem_of_fmap_2, list_elem_of_filter.
      split; [by rewrite <- He2 | done].
  - unfold delete_observations. rewrite (bind_ok _ _ _ _ _ Hload).
    intros (es & w2 & Hloop & [= _ <-])%bind_Ok_inv.
    eexists. split; [done|].
    intros x Hx. simpl in *.
    rewrite (delete_observations_names _ _ _ _ _ Hloop). by apply Hg.
  - unfold delete_relations. rewrite (bind_ok _ _ _ _ _ Hload).
    intros [= _ <-]. eexists. split; [done|].
    intros x [_ Hx]%list_elem_of_filter. simpl. by apply Hg.
  - destruct Hg as [Hg Hreq].
    rewrite (create_relations_run req w w1 g Hload).
    destruct (create_relations_loop (clock w1 (ticks w1)) req (relations g))
      as (added & -> & _ & _ & Hadd).
    intros [= _ <-]. eexists. split; [done|]. simpl. split; [|done].
    intros x [Hx|Hx]%elem_of_app; simpl; [by apply Hg|].
    apply (proj1 (Forall_forall _ _) Hadd) in Hx as (r0 & Hr0 & Htr & _).
    injection Htr as -> -> _. by apply Hreq.
Qed.

Lemma unique_keys_are_kept_witness :
  unique_keys sample_graph
  /\ exists g',
       disk (snd (delete_entities ["Alice"] (world_of sample_graph)))
       = FileOf (Json (model_dump g'))
       /\ unique_keys g'.
Proof.
  assert (H : unique_keys sample_graph).
  { split; apply (bool_decide_unpack _); vm_compute; exact I. }
  split; [exact H|].
  exact (proj1 (proj2 (proj2 (proj2 unique_keys_are_kept))) ["Alice"]
           (world_of sample_graph) sample_graph _ "Deleted entities" _
           eq_refl H eq_refl).
Defined.

Lemma no_dangling_is_kept_witness :
  no_dangling sample_graph
  /\ exists g',
       disk (snd (delete_entities ["Alice"] (world_of sample_graph)))
       = FileOf (Json (model_dump g'))
       /\ no_dangling g'.
Proof.
  assert (H : no_dangling sample_graph).
  { intros r ->%list_elem_of_singleton. split; simpl; set_solver. }
  split; [exact H|].
  exact (proj1 (proj2 (proj2 no_dangling_is_kept)) ["Alice"]
           (world_of sample_graph) sample_graph _ "Deleted entities" _
           eq_refl H eq_refl).
Defined.

(** [create_relations] does not look at the entities: on the empty store it
    saves a relation between two names that no entity has. *)
Example create_relations_allows_dangling :
  fst ((create_relations [mkRelation "Alice" "Bob" "knows" ""] ;;; read_graph)
         fresh_world)
  = Ok (mkGraph [] [mkRelation "Alice" "Bob" "knows" "2025-03-01T09:00:0"]).
Proof. reflexivity. Qed.

(** ** More on create_entities and create_relations *)

Lemma create_entity_bad_name t st item :
  truthy (dict_get "name" JNull item) = true ->
  (forall s, dict_get "name" JNull item <> JStr s) ->
  exists e, create_entity t st item = Raise e.
Proof.
  intros Htr Hns. unfold create_entity. rewrite Htr.
  destruct (dict_get "name" JNull item) as [|b|z|m x|s|l|d]; simpl;
    try done; try by eexists.
  by destruct (Hns s).
Qed.

Lemma rfold_raises {A S} (f : S -> A -> result S) (l : list A) (x : A) :
  x ∈ l -> (forall s, exists e, f s x = Raise e) ->
  forall s, exists e, rfold f l s = Raise e.
Proof.
  intros Hx Hf. induction l as [|y l IH]; intros s.
  - by apply elem_of_nil in Hx.
  - simpl. apply elem_of_cons in Hx as [<-|Hx].
    + destruct (Hf s) as [e ->]. by exists e.
    + destruct (f s y) as [s'|e]; simpl; [by apply IH | by exists e].
Qed.

(** X9: one item with a name that is neither a string nor falsy (a number
    other than zero, [true], a non-empty list or dict) makes
    [create_entities] raise, wherever the item stands in the request: the
    file is left as it was and no entity of the request is created. *)
Theorem create_entities_rejects_whole_batch (w w1 : World) (g : KnowledgeGraph)
    (req : list dict) (item : dict) :
  read_graph_file w = (Ok g, w1) ->
  item ∈ req ->
  truthy (dict_get "name" JNull item) = true ->
  (forall s, dict_get "name" JNull item <> JStr s) ->
  exists e w',
    create_entities req w = (Raise e, w') /\ disk w' = disk w.
Proof.
  intros Hload Hitem Htr Hns.
  rewrite (create_entities_run req w w1 g Hload).
  destruct (rfold_raises (create_entity (clock w1 (ticks w1))) req item Hitem
              (fun s => create_entity_bad_name _ s item Htr Hns)
              (entities g, names_of (entities g))) as [e ->].
  exists e, (advance 1 w1). split; [done|].
  by destruct (reads_only_read_graph_file _ _ _ Hload) as (? & _).
Qed.

Lemma create_entities_rejects_whole_batch_witness :
  exists e w',
    create_entities
      [[("name", JStr "Carol")]; [("name", JInt 7)]; [("name", JStr "Dave")]]
      (world_of sample_graph)
    = (Raise e, w')
    /\ disk w' = disk (world_of sample_graph).
Proof.
  apply (create_entities_rejects_whole_batch (world_of sample_graph)
           (advance 2 (world_of sample_graph)) sample_graph _
           [("name", JInt 7)]).
  - reflexivity.
  - set_solver.
  - reflexivity.
  - discriminate.
Defined.

(** X10: when [create_entities] returns, it has saved the loaded graph
    followed by one new entity for each name of the request that is a
    non-empty string, is not a name of the graph and was not given by an
    earlier item, in the order of the request.  Each new entity is made of
    the first item of the request that gives its name, later items of that
    name counting for nothing: it has the type of that item (["General"]
    when the item has none), [created_at] and [last_modified] set to the
    one reading of the clock of the call, and one observation, stamped
    alike, for each string among the observations of the item; what is not
    a string there is dropped. *)
Theorem create_entities_creates (w w1 w' : World) (g : KnowledgeGraph)
    (req : list dict) (r : string) :
  read_graph_file w = (Ok g, w1) ->
  create_entities req w = (Ok r, w') ->
  exists added,
    w' = saved (mkGraph (entities g ++ added) (relations g)) (advance 1 w1)
    /\ name <$> added = new_names (name <$> entities g) req
    /\ Forall (fun e => exists item,
                 item ∈ req
                 /\ first_named (name e) req = Some item
                 /\ created_from (clock w1 (ticks w1)) item e)
         added.
Proof.
  intros Hload. rewrite (create_entities_run req w w1 g Hload).
  destruct (rfold _ req _) as [st|e] eqn:Hloop; [|done].
  apply create_entities_shape in Hloop as (added & -> & Hn & Hc).
  intros [= _ <-]. exists added. split_and!; try done.
  eapply Forall_impl; [exact Hc|]. intros e (item & Hf & ?).
  exists item. split_and!; try done. by apply first_named_elem in Hf as [? _].
Qed.

Lemma create_entities_creates_witness :
  exists added,
    snd (create_entities
           [[("name", JStr "Alice")]; [("entityType", JStr "Person")];
            [("name", JStr "Carol");
             ("observations", JArr [JStr "sings"; JInt 3; JStr "hikes"])];
            [("name", JStr "Carol"); ("entityType", JStr "Robot")]]
           (world_of sample_graph))
    = saved (mkGraph (entities sample_graph ++ added)
               (relations sample_graph))
        (advance 1 (advance 2 (world_of sample_graph)))
    /\ name <$> added = ["Carol"]
    /\ Forall (fun e =>
                 created_from "2025-03-01T09:00:2"
                   [("name", JStr "Carol");
                    ("observations",
                     JArr [JStr "sings"; JInt 3; JStr "hikes"])] e) added.
Proof.
  destruct (create_entities_creates (world_of sample_graph)
              (advance 2 (world_of sample_graph)) _ sample_graph
              [[("name", JStr "Alice")]; [("entityType", JStr "Person")];
               [("name", JStr "Carol");
                ("observations", JArr [JStr "sings"; JInt 3; JStr "hikes"])];
               [("name", JStr "Carol"); ("entityType", JStr "Robot")]]
              "Entities created" eq_refl eq_refl)
    as (added & Hw & Hn & Hc).
  exists added. split_and!; [exact Hw | exact Hn |].
  apply Forall_forall. intros e He.
  destruct (proj1 (Forall_forall _ _) Hc e He) as (item & _ & Hf & Hcf).
  assert (Hname : name e = "Carol").
  { apply (list_elem_of_fmap_2 name) in He. rewrite Hn in He.
    by apply list_elem_of_singleton in He. }
  rewrite Hname in Hf. by injection Hf as <-.
Defined.



(** ** More on add_observations *)














(** The report of the request of the witness. *)
Example add_observations_report_sails :
  fst (add_observations
         [mkObservationItem "Alice" ["likes tea"];
          mkObservationItem "Bob" ["sails"; "sails"; "cooks"]]
         (world_of sample_graph))
  = Ok ["Added 2 to Bob"].
Proof. reflexivity. Qed.

(** ** More on search_nodes and open_nodes *)

(** X14: [search_nodes] returns exactly the entities of the graph for which
    the lowered query occurs as a substring of the lowered name, of the
    lowered type or of the lowered content of some observation; so a query
    that lowers to what the name of an entity lowers to returns that
    entity.  This holds whatever function [lower] is. *)
Theorem search_nodes_finds_substrings (lower : string -> string)
    (w w1 : World) (g : KnowledgeGraph) (query : string) :
  read_graph_file w = (Ok g, w1) ->
  exists sub,
    search_nodes lower query w = (Ok sub, w1)
    /\ (forall e, e ∈ entities sub <->
          e ∈ entities g
          /\ exists field,
               (field = name e \/ field = entityType e
                \/ field ∈ content <$> observations e)
               /\ exists a b, lower field = a +:+ lower query +:+ b)
    /\ (forall e, e ∈ entities g -> lower query = lower (name e) ->
        e ∈ entities sub).
Proof.
  intros Hload. exists (search_nodes_of lower query g).
  unfold search_nodes. rewrite (bind_ok _ _ _ _ _ Hload).
  rewrite search_nodes_of_spec. simpl.
  assert (Hiff : forall e,
             e ∈ filter (fun e => matches lower (lower query) e = true)
                   (entities g)
             <-> e ∈ entities g
                 /\ exists field,
                      (field = name e \/ field = entityType e
                       \/ field ∈ content <$> observations e)
                      /\ exists a b, lower field = a +:+ lower query +:+ b).
  { intros e. rewrite list_elem_of_filter, matches_spec. tauto. }
  split_and!; [done | exact Hiff |].
  intros e He Hq. apply Hiff. split; [done|].
  exists (name e). split; [by left|]. exists "", "". rewrite Hq. simpl.
  by rewrite append_empty_r.
Qed.

Lemma search_nodes_finds_substrings_witness :
  exists sub,
    search_nodes ascii_lower "ALICE" (world_of sample_graph)
    = (Ok sub, advance 2 (world_of sample_graph))
    /\ alice ∈ entities sub.
Proof.
  destruct (search_nodes_finds_substrings ascii_lower (world_of sample_graph)
              (advance 2 (world_of sample_graph)) sample_graph "ALICE" eq_refl)
    as (sub & Hrun & _ & Hname).
  exists sub. split; [exact Hrun|]. apply Hname; [set_solver | reflexivity].
Defined.

(** X15: what a search returns is part of what [open_nodes] returns for the
    names of the entities the search matched: the same entities at least,
    and every relation of the search (both ends matched) among the relations
    opened (one end found). *)
Theorem open_nodes_covers_search (lower : string -> string) (w w1 : World)
    (g : KnowledgeGraph) (query : string) :
  read_graph_file w = (Ok g, w1) ->
  exists found opened,
    search_nodes lower query w = (Ok found, w1)
    /\ open_nodes (name <$> entities found) w = (Ok opened, w1)
    /\ (forall e, e ∈ entities found -> e ∈ entities opened)
    /\ (forall r, r ∈ relations found -> r ∈ relations opened).
Proof.
  intros Hload.
  exists (search_nodes_of lower query g),
         (open_nodes_of (name <$> entities (search_nodes_of lower query g)) g).
  unfold search_nodes, open_nodes. rewrite !(bind_ok _ _ _ _ _ Hload).
  split_and!; try done.
  - rewrite open_nodes_of_spec, search_nodes_of_spec. simpl.
    intros e He. apply list_elem_of_filter. split.
    + by apply list_elem_of_fmap_2.
    + by apply list_elem_of_filter in He as [_ ?].
  - rewrite open_nodes_of_spec, search_nodes_of_spec. simpl.
    intros r [[Hf _] Hr]%list_elem_of_filter.
    apply list_elem_of_filter. split; [|done]. left.
    apply list_elem_of_fmap in Hf as (e & -> & He).
    apply list_elem_of_fmap_2, list_elem_of_filter. split.
    + by apply list_elem_of_fmap_2.
    + by apply list_elem_of_filter in He as [_ ?].
Qed.

Lemma open_nodes_covers_search_witness :
  exists found opened,
    search_nodes ascii_lower "A" (world_of ab_graph)
    = (Ok found, advance 2 (world_of ab_graph))
    /\ open_nodes (name <$> entities found) (world_of ab_graph)
       = (Ok opened, advance 2 (world_of ab_graph))
    /\ (forall e, e ∈ entities found -> e ∈ entities opened)
    /\ (forall r, r ∈ relations found -> r ∈ relations opened).
Proof.
  apply (open_nodes_covers_search ascii_lower (world_of ab_graph)
           (advance 2 (world_of ab_graph)) ab_graph "A").
  reflexivity.
Defined.

(** X16: [open_nodes] asked only for names that no entity has returns the
    empty graph, also when relations of the graph mention those names: the
    relations are chosen by the names found, not by the names asked. *)
Theorem open_nodes_unknown_names (w w1 : World) (g : KnowledgeGraph)
    (names : list string) :
  read_graph_file w = (Ok g, w1) ->
  (forall n, n ∈ names -> n ∉ name <$> entities g) ->
  open_nodes names w = (Ok empty_graph, w1).
Proof.
  intros Hload Hnone. unfold open_nodes. rewrite (bind_ok _ _ _ _ _ Hload).
  rewrite open_nodes_of_spec. simpl.
  rewrite (filter_none (fun e => name e ∈ names)).
  2: { intros e He Hin. apply (Hnone _ Hin). by apply list_elem_of_fmap_2. }
  simpl. rewrite filter_none; [done|].
  intros r _ [H|H]; by apply elem_of_nil in H.
Qed.

Lemma open_nodes_unknown_names_witness :
  open_nodes ["B"] (world_of (mkGraph [node_a] [a_knows_b]))
  = (Ok empty_graph, advance 1 (world_of (mkGraph [node_a] [a_knows_b]))).
Proof.
  apply (open_nodes_unknown_names (world_of (mkGraph [node_a] [a_knows_b]))
           (advance 1 (world_of (mkGraph [node_a] [a_knows_b])))
           (mkGraph [node_a] [a_knows_b])).
  - reflexivity.
  - intros n ->%list_elem_of_singleton. set_solver.
Defined.

(** ** More on retrieve_context *)

Lemma last_filter_cons {A} (P : A -> Prop) `{!forall x, Decision (P x)}
    (x : A) (l : list A) :
  last (filter P (x :: l))
  = match last (filter P l) with
    | Some y => Some y
    | None => if decide (P x) then Some x else None
    end.
Proof.
  rewrite filter_cons. destruct (decide (P x)); [|by destruct (last _)].
  destruct (filter P l) as [|y l'] eqn:E; [done|].
  change (last (x :: y :: l')) with (last (y :: l')).
  destruct (last (y :: l')) eqn:E'; [done|]. by apply last_None in E'.
Qed.

Lemma doc_map_observations (st : list string * gmap string Observation)
    (obs : list Observation) (c : string) :
  (foldl (fun (st : list string * gmap string Observation) o =>
            (st.1 ++ [content o], <[content o := o]> st.2)) st obs).2 !! c
  = match last (filter (fun o => content o = c) obs) with
    | Some o => Some o
    | None => st.2 !! c
    end.
Proof.
  revert st. induction obs as [|o obs IH]; intros st; [done|].
  simpl foldl. rewrite IH, last_filter_cons. simpl.
  destruct (last (filter _ obs)); [done|].
  destruct (decide (content o = c)) as [<-|Hne].
  - by rewrite lookup_insert_eq.
  - by rewrite lookup_insert_ne.
Qed.

Lemma doc_map_from lower target_tag es
    (st : list string * gmap string Observation) (c : string) :
  (foldl (fun st entity =>
            if contains target_tag (lower (entityType entity))
            then foldl (fun (st : list string * gmap string Observation) obs =>
                          (st.1 ++ [content obs], <[content obs := obs]> st.2))
                   st (observations entity)
            else st) st es).2 !! c
  = match last (filter (fun o => content o = c)
                  (candidate_observations lower target_tag es)) with
    | Some o => Some o
    | None => st.2 !! c
    end.
Proof.
  revert st. induction es as [|e es IH]; intros st; [done|].
  simpl foldl. rewrite IH. unfold candidate_observations.
  rewrite fmap_cons. simpl concat. rewrite filter_app.
  fold (candidate_observations lower target_tag es).
  destruct (last (filter _ (candidate_observations lower target_tag es))) as [o|]
    eqn:E.
  - apply last_Some in E as [l' ->]. rewrite app_assoc.
    by rewrite last_snoc.
  - apply last_None in E. rewrite E, app_nil_r.
    destruct (contains target_tag (lower (entityType e))); [|done].
    by rewrite doc_map_observations.
Qed.

(** The map from a document to its observation keeps, for each content, the
    last candidate observation with that content. *)
Lemma doc_map_last lower target_tag es c :
  (collect_candidates lower target_tag es).2 !! c
  = last (filter (fun o => content o = c)
            (candidate_observations lower target_tag es)).
Proof.
  unfold collect_candidates. rewrite doc_map_from. simpl.
  by destruct (last _).
Qed.

Lemma length_slice_to {A} (k : Z) (l : list A) :
  length (slice_to k l)
  = if (0 <=? k)%Z then Nat.min (Z.to_nat k) (length l)
    else length l - Z.to_nat (- k).
Proof.
  unfold slice_to. destruct (0 <=? k)%Z; rewrite length_take; lia.
Qed.

(** X17: when candidates exist and the engine answers, [retrieve_context]
    returns one hit for each of the first [top_k] pairs of the answer, in
    the order of the answer (all but the last [-top_k] pairs when [top_k] is
    negative, none when it is zero): the text of the pair, its score
    rounded, and as [created_at] the timestamp of the last candidate
    observation with that text, or the empty string when the engine made
    the text up.  This holds whatever function [lower] is. *)
Theorem retrieve_context_hits (lower : string -> string) (score : Type)
    (round4 : score -> score) (rank : engine score) (req : RetrieveContextRequest)
    (w w1 : World) (g : KnowledgeGraph) (ranked : list (string * score)) :
  read_graph_file w = (Ok g, w1) ->
  candidates_of lower (lower (canonical_entity req)) (entities g) <> [] ->
  rank (query_thought req)
    (candidates_of lower (lower (canonical_entity req)) (entities g))
  = inr ranked ->
  exists hits,
    retrieve_context lower round4 (Some rank) req w
    = (Ok (Ranked (canonical_entity req) (query_thought req) hits), w1)
    /\ Forall2 (fun ts h =>
                  hit_content h = ts.1 /\ hit_score h = round4 ts.2
                  /\ hit_created_at h
                     = match last (filter (fun o => content o = ts.1)
                                     (candidate_observations lower
                                        (lower (canonical_entity req))
                                        (entities g))) with
                       | Some o => timestamp o
                       | None => ""
                       end)
         (slice_to (top_k req) ranked) hits
    /\ slice_to (top_k req) ranked `prefix_of` ranked
    /\ length hits
       = if (0 <=? top_k req)%Z
         then Nat.min (Z.to_nat (top_k req)) (length ranked)
         else length ranked - Z.to_nat (- top_k req).
Proof.
  intros Hload Hsome Hrank.
  exists (top_result round4
            (collect_candidates lower (lower (canonical_entity req))
               (entities g)).2
          <$> slice_to (top_k req) ranked).
  split_and!.
  - unfold retrieve_context. rewrite (bind_ok _ _ _ _ _ Hload).
    rewrite collect_candidates_fst.
    destruct (candidates_of _ _ _) as [|d ds] eqn:E; [done|].
    by rewrite Hrank.
  - apply Forall2_fmap_r, Forall_Forall2_diag, Forall_forall.
    intros ts _. unfold top_result. simpl. by rewrite doc_map_last.
  - unfold slice_to. destruct (0 <=? top_k req)%Z; apply prefix_take.
  - by rewrite length_fmap, length_slice_to.
Qed.

Lemma retrieve_context_hits_witness :
  exists hits,
    retrieve_context ascii_lower (fun s : nat => s) (Some echo_engine)
      (mkRetrieveContextRequest "person" "what does she drink" 3)
      (world_of sample_graph)
    = (Ok (Ranked "person" "what does she drink" hits),
       advance 2 (world_of sample_graph))
    /\ length hits = 1.
Proof.
  destruct (retrieve_context_hits ascii_lower nat (fun s => s) echo_engine
              (mkRetrieveContextRequest "person" "what does she drink" 3)
              (world_of sample_graph) (advance 2 (world_of sample_graph))
              sample_graph [("likes tea", 1)] eq_refl)
    as (hits & Hrun & _ & _ & Hlen); [done | reflexivity |].
  exists hits. split; [exact Hrun | exact Hlen].
Defined.

(** ** delete_observations with something else than a list *)






(** ** What a successful load says of the file *)

Lemma for_each_Ok_Forall2 {A B} (f : A -> M B) (l : list A) w ys w' :
  for_each f l w = (Ok ys, w') ->
  Forall2 (fun x y => exists v v', f x v = (Ok y, v')) l ys.
Proof.
  revert w ys. induction l as [|x l IH]; simpl; intros w ys.
  - intros [= <- <-]. constructor.
  - intros (y & w1 & Hy & Hrest)%bind_Ok_inv.
    apply bind_Ok_inv in Hrest as (ys' & w2 & Hys & [= <- <-]).
    constructor; [by eauto | by eapply IH].
Qed.

Lemma load_entity_fields e w ent w' :
  load_entity e w = (Ok ent, w') ->
  stored_str "name" e = Some (name ent)
  /\ stored_str "entityType" e = Some (entityType ent).
Proof.
  unfold load_entity.
  intros (d & w1 & [Hd ->]%lift_Ok_inv & Hrun)%bind_Ok_inv.
  destruct e; try done. injection Hd as ->.
  apply bind_Ok_inv in Hrun as (ct & w2 & _ & Hrun).
  apply bind_Ok_inv in Hrun as (os & w3 & _ & Hrun).
  apply bind_Ok_inv in Hrun as (obs & w4 & _ & Hrun).
  apply bind_Ok_inv in Hrun as (n & w5 & [Hn _]%lift_Ok_inv & Hrun).
  apply bind_Ok_inv in Hrun as (ty & w6 & [Hty _]%lift_Ok_inv & Hrun).
  apply bind_Ok_inv in Hrun as (t & w7 & _ & Hrun).
  apply lift_Ok_inv in Hrun as [Hnew _]. unfold Entity_new in Hnew.
  apply rbind_Ok_inv in Hnew as (n' & Hn' & Hnew).
  apply rbind_Ok_inv in Hnew as (ty' & Hty' & Hnew).
  apply rbind_Ok_inv in Hnew as (c' & _ & Hnew).
  apply rbind_Ok_inv in Hnew as (lm' & _ & [= <-]). simpl.
  unfold dict_item in Hn, Hty.
  destruct (dict_lookup "name" d) as [vn|]; [|done].
  destruct (dict_lookup "entityType" d) as [vty|]; [|done].
  injection Hn as ->. injection Hty as ->.
  destruct n; try done. destruct ty; try done.
  by injection Hn' as ->; injection Hty' as ->.
Qed.

Lemma kw_field_Ok k d s :
  kw_field k d = Ok s -> dict_lookup k d = Some (JStr s).
Proof.
  unfold kw_field. destruct (dict_lookup k d) as [[| | | |s'| |]|]; try done.
  by intros [= ->].
Qed.

Lemma Relation_kwargs_fields d rel :
  Relation_kwargs d = Ok rel ->
  dict_lookup "from" d = Some (JStr (from_ rel))
  /\ dict_lookup "to" d = Some (JStr (to rel))
  /\ dict_lookup "relationType" d = Some (JStr (relationType rel)).
Proof.
  unfold Relation_kwargs.
  intros (f & Hf%kw_field_Ok & H)%rbind_Ok_inv.
  apply rbind_Ok_inv in H as (t & Ht%kw_field_Ok & H).
  apply rbind_Ok_inv in H as (ty & Hty%kw_field_Ok & H).
  apply rbind_Ok_inv in H as (c & _ & [= <-]). done.
Qed.

Lemma load_relation_fields r w rel w' :
  load_relation r w = (Ok rel, w') ->
  stored_str "from" r = Some (from_ rel)
  /\ stored_str "to" r = Some (to rel)
  /\ stored_str "relationType" r = Some (relationType rel).
Proof.
  assert (Hdict : forall d, r = JObj d ->
            load_relation r w = (Ok rel, w') ->
            stored_str "from" r = Some (from_ rel)
            /\ stored_str "to" r = Some (to rel)
            /\ stored_str "relationType" r = Some (relationType rel)).
  2: { destruct r as [| | | | | |d]; [..|by eauto];
       unfold load_relation;
       intros (has & w1 & [Hin ->]%lift_Ok_inv & Hrun)%bind_Ok_inv;
       try done;
       (destruct has;
        [ by apply lift_Ok_inv in Hrun as [? _]
        | apply bind_Ok_inv in Hrun as (t & w2 & _ & Hrun);
          by apply bind_Ok_inv in Hrun
            as (r' & w3 & [? _]%lift_Ok_inv & _) ]). }
  intros d ->. rewrite load_relation_dict.
  unfold stored_str. destruct (dict_has "created_at" d).
  - intros [(Hf & Ht & Hty)%Relation_kwargs_fields _]%lift_Ok_inv.
    by rewrite Hf, Ht, Hty.
  - intros (t & w1 & _ & [H _]%lift_Ok_inv)%bind_Ok_inv.
    apply Relation_kwargs_fields in H as (Hf & Ht & Hty).
    rewrite !dict_lookup_app in Hf, Ht, Hty.
    destruct (dict_lookup "from" d); [|done].
    destruct (dict_lookup "to" d); [|done].
    destruct (dict_lookup "relationType" d); [|done].
    by simplify_eq.
Qed.

(** X19: a load that returns has accounted for every item of the file: the
    document is a dict, what it holds under [entities] and [relations] can
    be iterated, and the graph returned has one entity for each item under
    [entities], in order, with the name and the type stored, and one
    relation for each item under [relations], in order, with the triple
    stored.  No item is skipped, and one item that cannot be read makes the
    whole load raise. *)
Theorem load_accounts_for_every_item (w w' : World) (data : json)
    (g : KnowledgeGraph) :
  disk w = FileOf (Json data) ->
  read_graph_file w = (Ok g, w') ->
  exists d es rs,
    data = JObj d
    /\ py_iter (dict_get "entities" (JArr []) d) = Ok es
    /\ py_iter (dict_get "relations" (JArr []) d) = Ok rs
    /\ Forall2 (fun e ent =>
                  stored_str "name" e = Some (name ent)
                  /\ stored_str "entityType" e = Some (entityType ent))
         es (entities g)
    /\ Forall2 (fun r rel =>
                  stored_str "from" r = Some (from_ rel)
                  /\ stored_str "to" r = Some (to rel)
                  /\ stored_str "relationType" r = Some (relationType rel))
         rs (relations g).
Proof.
  intros Hd. unfold read_graph_file. rewrite Hd. unfold load_data.
  intros (d & w1 & [Hdata ->]%lift_Ok_inv & Hrun)%bind_Ok_inv.
  destruct data; try done. injection Hdata as ->.
  apply bind_Ok_inv in Hrun as (es & w2 & [Hes ->]%lift_Ok_inv & Hrun).
  apply bind_Ok_inv in Hrun as (ents & w3 & Hents & Hrun).
  apply bind_Ok_inv in Hrun as (rs & w4 & [Hrs ->]%lift_Ok_inv & Hrun).
  apply bind_Ok_inv in Hrun as (rels & w5 & Hrels & [= <- <-]).
  exists d, es, rs. simpl. split_and!; try done.
  - eapply Forall2_impl; [exact (for_each_Ok_Forall2 _ _ _ _ _ Hents)|].
    intros e ent (v & v' & H). by eapply load_entity_fields.
  - eapply Forall2_impl; [exact (for_each_Ok_Forall2 _ _ _ _ _ Hrels)|].
    intros r rel (v & v' & H). by eapply load_relation_fields.
Qed.

Lemma load_accounts_for_every_item_witness :
  exists d es rs,
    legacy_doc = JObj d
    /\ py_iter (dict_get "entities" (JArr []) d) = Ok es
    /\ py_iter (dict_get "relations" (JArr []) d) = Ok rs
    /\ Forall2 (fun e ent =>
                  stored_str "name" e = Some (name ent)
                  /\ stored_str "entityType" e = Some (entityType ent))
         es (entities legacy_loaded)
    /\ Forall2 (fun r rel =>
                  stored_str "from" r = Some (from_ rel)
                  /\ stored_str "to" r = Some (to rel)
                  /\ stored_str "relationType" r = Some (relationType rel))
         rs (relations legacy_loaded).
Proof.
  apply (load_accounts_for_every_item legacy_world (advance 4 legacy_world));
    reflexivity.
Defined.

(** ** delete_entities in sequence *)





Lemma queries_never_write_witness :
  disk (snd (search_nodes ascii_lower "a" (world_of sample_graph)))
  = disk (world_of sample_graph).
Proof.
  exact (proj1 (proj1 (proj2 (proj2 queries_never_write)) ascii_lower "a"
                  (world_of sample_graph) _ _ eq_refl)).
Defined.

(** ** Characters and the clock of a failing load *)

(** A string given where a list of observations is expected is read one
    character at a time, not one byte at a time: [b"n\xc3\xa9"] is the two
    characters [n] and [e] with an acute accent. *)
Example chars_of_utf8 :
  let e_acute := String (ascii_of_nat 195) (String (ascii_of_nat 169) "") in
  chars ("n" +:+ e_acute) = ["n"; e_acute]
  /\ initial_observations "t" [("observations", JStr ("n" +:+ e_acute))]
     = Ok [mkObservation "n" "t"; mkObservation e_acute "t"].
Proof. split; reflexivity. Qed.

(** A relation stored as a list has no [created_at]: the clock is read for
    the stamp before the assignment fails. *)
Example load_relation_of_a_list :
  load_relation (JArr []) fresh_world = (Raise TypeError, advance 1 fresh_world)
  /\ load_relation (JInt 0) fresh_world = (Raise TypeError, fresh_world).
Proof. split; reflexivity. Qed.
